(** * EUDR deforestation API: the area and risk scoring engine

    A shallow embedding of [services/deforestation_analyzer.py]
    (class [DeforestationAnalyzer]), of [services/copernicus_service.py]
    and of the endpoints of [main.py], with the properties of the geometry
    module, risk classifier, change/report composer and time-span utility.

    Numbers.  The analyzer computes on Python floats, that is on IEEE 754
    binary64.  Module [Binary64] embeds its arithmetic core
    ([_calculate_area], [_get_location_risk_factor], [analyze_change]) on
    Rocq's primitive floats: every [+], [*], [/] rounds to nearest even,
    overflows to an infinity and propagates NaN as the program's does,
    comparisons with NaN are false, [sum] adds from left to right, and
    libm's cosine is a parameter.  What is stated of the values the program
    computes (floors, clamps, sums, overflow) is stated on that module.

    The same code is also read over the real numbers [R], with exact [+],
    [*], [/], [abs], [math.cos] and [math.radians]: that reading has no
    rounding, no overflow and no NaN, and its coordinates are finite
    numbers.  It carries the statements on the
    control flow of the composers and endpoints and on comparisons of
    results with constants; where such a statement needs the floats to
    stay finite, the coordinates are required to be geographic (longitude
    in [-180, 180], latitude in [-90, 90]).  Python's [int] literals that
    flow into float arithmetic ([0], [100], [111320]) are the corresponding
    numbers.

    Data.  [coordinates : List[List[float]]] is a list of GeoJSON positions
    [[lon, lat]]; a position is modelled as a pair, [coord[0]] being its
    first and [coord[1]] its second component.

    Effects.  The analyzer raises (a division by [len(coordinates)],
    [math.cos] of an infinite latitude) and draws from Python's [random]
    module: both are explicit, in a small state-and-exception monad over an
    abstract generator. *)

From Stdlib Require Import String Ascii.
From Stdlib Require Import Reals Lra Lia List ZArith Bool.
From Stdlib Require Import Permutation.
From Stdlib Require Floats.
Import ListNotations.

Set Warnings "-inexact-float".

Local Open Scope R_scope.

(** ** Python numerics over the reals *)

Definition Rltb (x y : R) : bool := if Rlt_dec x y then true else false.
Definition Rleb (x y : R) : bool := if Rle_dec x y then true else false.

(** [min(a, b)] keeps [a] unless [b < a]; [max(a, b)] keeps [a] unless
    [b > a] (the builtin scans its arguments left to right). *)
Definition py_min (a b : R) : R := if Rltb b a then b else a.
Definition py_max (a b : R) : R := if Rltb a b then b else a.

(** [math.radians]. *)
Definition radians (deg : R) : R := deg * (PI / 180).

(** A position [[lon, lat]]. *)
Definition coord : Type := (R * R)%type.
Definition idx0 (c : coord) : R := fst c.
Definition idx1 (c : coord) : R := snd c.

(** [sum(...)] over a generator of floats, starting from [0]: over the
    reals the additions are exact ([Binary64.py_sum] has the rounded
    ones). *)
Definition py_sum (l : list R) : R := fold_left Rplus l 0.

(** ** Geometry module: [_calculate_area] *)

(** The shoelace area over the reals, where no sum overflows
    ([Binary64._calculate_area] is the function on floats). *)

(** The nested helper [deg_to_meters(lat_deg, lon_deg)]. *)
Definition deg_to_meters (lat_deg lon_deg : R) : R * R :=
  let lat_m := lat_deg * 111320 in
  let lon_m := lon_deg * 111320 * cos (radians lat_deg) in
  (lat_m, lon_m).

(** One iteration of [for i in range(n)]: the running [area] after the
    term of edge [i -> (i + 1) % n] has been added. *)
Definition shoelace_step (coordinates : list coord) (n : nat)
    (area : R) (i : nat) : R :=
  let j := ((i + 1) mod n)%nat in
  let ci := nth i coordinates (0, 0) in
  let cj := nth j coordinates (0, 0) in
  let '(lat1, lon1) := deg_to_meters (idx1 ci) (idx0 ci) in
  let '(lat2, lon2) := deg_to_meters (idx1 cj) (idx0 cj) in
  area + (lat1 * lon2 - lat2 * lon1).

Definition shoelace_sum (coordinates : list coord) : R :=
  let n := length coordinates in
  fold_left (shoelace_step coordinates n) (seq 0 n) 0.

Definition _calculate_area (coordinates : list coord) : R :=
  if (length coordinates <? 3)%nat then 0
  else
    let area := shoelace_sum coordinates in
    let area := Rabs area / 2 in
    let area_hectares := area / 10000 in
    py_max area_hectares 1.

(** ** Exceptions, results and the random generator *)

Inductive exn : Type :=
| ZeroDivisionError
| IndexError
| ValueError.

Inductive result (A : Type) : Type :=
| Ok (a : A)
| Raise (e : exn).
Arguments Ok {A} a.
Arguments Raise {A} e.

Definition rbind {A B : Type} (c : result A) (k : A -> result B) : result B :=
  match c with
  | Ok a => k a
  | Raise e => Raise e
  end.

(** [a / b] where [b] is not a literal: Python raises on a zero divisor. *)
Definition py_div (a b : R) : result R :=
  if Req_dec_T b 0 then Raise ZeroDivisionError else Ok (a / b).

(** The part of Python's [random.Random] the analyzer uses: [random()]
    yields the next float of [[0, 1)], [_randbelow(n)] the next integer
    below [n]; each returns the generator's next state. *)
Record generator : Type := {
  rng : Type;
  random : rng -> R * rng;
  randbelow : nat -> rng -> nat * rng
}.

(** What [random.Random] guarantees of its draws. *)
Definition generator_ok (G : generator) : Prop :=
  (forall g, 0 <= fst (random G g) < 1) /\
  (forall n g, (0 < n)%nat -> (fst (randbelow G n g) < n)%nat).

(** Computations that draw and may raise. *)
Definition M (G : generator) (A : Type) : Type :=
  rng G -> result (A * rng G).

Definition ret {G : generator} {A : Type} (a : A) : M G A :=
  fun g => Ok (a, g).

Definition bind {G : generator} {A B : Type}
    (c : M G A) (k : A -> M G B) : M G B :=
  fun g =>
    match c g with
    | Ok (a, g') => k a g'
    | Raise e => Raise e
    end.

Definition lift {G : generator} {A : Type} (c : result A) : M G A :=
  fun g =>
    match c with
    | Ok a => Ok (a, g)
    | Raise e => Raise e
    end.

Declare Scope monad_scope.
Delimit Scope monad_scope with monad.
Notation "x <- c ;; k" := (bind c (fun x => k))
  (at level 61, c at next level, right associativity) : monad_scope.
Notation "' p <- c ;; k" := (bind c (fun x => let 'p := x in k))
  (at level 61, p pattern, c at next level, right associativity)
  : monad_scope.
Notation "x <-? c ;; k" := (rbind c (fun x => k))
  (at level 61, c at next level, right associativity) : monad_scope.
Local Open Scope monad_scope.

(** [random.uniform(a, b)] is [a + (b - a) * self.random()]. *)
Definition uniform {G : generator} (a b : R) : M G R :=
  fun g => let '(u, g') := random G g in Ok (a + (b - a) * u, g').

(** [random.choice(seq)] is [seq[self._randbelow(len(seq))]]. *)
Definition choice {G : generator} {A : Type} (seq : list A) : M G A :=
  fun g =>
    let '(i, g') := randbelow G (length seq) g in
    match nth_error seq i with
    | Some x => Ok (x, g')
    | None => Raise IndexError
    end.

(** ** Risk classifier: [_get_location_risk_factor] *)

Definition _get_location_risk_factor (coordinates : list coord) : result R :=
  center_lat <-? py_div (py_sum (map idx1 coordinates))
                        (INR (length coordinates)) ;;
  center_lon <-? py_div (py_sum (map idx0 coordinates))
                        (INR (length coordinates)) ;;
  if Rleb (-10) center_lat && Rleb center_lat 10 &&
     Rleb (-80) center_lon && Rleb center_lon (-40) then Ok 0.8
  else if Rleb (-10) center_lat && Rleb center_lat 10 &&
          Rleb 10 center_lon && Rleb center_lon 35 then Ok 0.7
  else if Rleb (-10) center_lat && Rleb center_lat 20 &&
          Rleb 90 center_lon && Rleb center_lon 150 then Ok 0.6
  else if Rleb 35 center_lat && Rleb center_lat 70 &&
          Rleb (-10) center_lon && Rleb center_lon 50 then Ok 0.2
  else Ok 0.4.

(** ** Time-span utility: [_calculate_time_span] *)

(** [datetime.strptime(s, '%Y-%m-%d')] compiles the format to the regular
    expression [(?P<Y>\d\d\d\d)-(?P<m>1[0-2]|0[1-9]|[1-9])-(?P<d>3[0-1]|[1-2]\d|0[1-9]|[1-9]| [1-9])],
    matches it at the start of [s], refuses unconverted trailing data, and
    builds the date, which must exist in the proleptic Gregorian calendar
    (years 1 to 9999).  A matcher yields its matches in the order the
    backtracking engine tries them, each with the integer it read and the
    rest of the input.  Date strings are ASCII. *)
Definition rx : Type := string -> list (Z * string).

Definition digit (c : ascii) : Z := Z.of_nat (nat_of_ascii c) - 48.

Definition in_class (lo hi c : ascii) : bool :=
  (nat_of_ascii lo <=? nat_of_ascii c)%nat &&
  (nat_of_ascii c <=? nat_of_ascii hi)%nat.

(** A character class of digits [[lo-hi]]. *)
Definition cls (lo hi : ascii) : rx :=
  fun s =>
    match s with
    | String c r => if in_class lo hi c then [(digit c, r)] else []
    | EmptyString => []
    end.

(** A literal character that is not a digit: it reads as [0]. *)
Definition lit (a : ascii) : rx :=
  fun s =>
    match s with
    | String c r => if Ascii.eqb a c then [(0%Z, r)] else []
    | EmptyString => []
    end.

(** Concatenation [pq], reading the decimal number of both parts. *)
Definition cat (p q : rx) : rx :=
  fun s =>
    flat_map (fun '(a, r) => map (fun '(b, r') => ((10 * a + b)%Z, r')) (q r))
             (p s).

(** Alternation [p|q]: the matches of [p] are tried first. *)
Definition alt (p q : rx) : rx := fun s => (p s ++ q s)%list.

Definition re_d09 : rx := cls "0" "9".
Definition re_d19 : rx := cls "1" "9".

Definition re_Y : rx := cat (cat (cat re_d09 re_d09) re_d09) re_d09.

Definition re_m : rx :=
  alt (cat (cls "1" "1") (cls "0" "2"))
      (alt (cat (cls "0" "0") re_d19) re_d19).

Definition re_d : rx :=
  alt (cat (cls "3" "3") (cls "0" "1"))
      (alt (cat (cls "1" "2") re_d09)
           (alt (cat (cls "0" "0") re_d19)
                (alt re_d19 (cat (lit " ") re_d19)))).

(** The whole format: the groups [Y], [m], [d] of every match, in the
    engine's order, with the input left after the match. *)
Definition format_regex (s : string) : list (Z * Z * Z * string) :=
  flat_map (fun '(y, r1) =>
    flat_map (fun '(_, r2) =>
      flat_map (fun '(m, r3) =>
        flat_map (fun '(_, r4) =>
          map (fun '(d, r5) => (y, m, d, r5)) (re_d r4))
          (lit "-" r3))
        (re_m r2))
      (lit "-" r1))
    (re_Y s).

(** [datetime]'s calendar arithmetic ([_is_leap], [_days_in_month],
    [_days_before_year], [_days_before_month], [_ymd2ord]). *)
Definition _is_leap (year : Z) : bool :=
  ((year mod 4 =? 0) &&
   (negb (year mod 100 =? 0) || (year mod 400 =? 0)))%Z.

Definition _DAYS_IN_MONTH : list Z :=
  [-1; 31; 28; 31; 30; 31; 30; 31; 31; 30; 31; 30; 31]%Z.

Definition _DAYS_BEFORE_MONTH : list Z :=
  [-1; 0; 31; 59; 90; 120; 151; 181; 212; 243; 273; 304; 334]%Z.

Definition _days_in_month (year month : Z) : Z :=
  if ((month =? 2)%Z && _is_leap year)%bool then 29%Z
  else nth (Z.to_nat month) _DAYS_IN_MONTH 0%Z.

Definition _days_before_year (year : Z) : Z :=
  let y := (year - 1)%Z in
  (y * 365 + y / 4 - y / 100 + y / 400)%Z.

Definition _days_before_month (year month : Z) : Z :=
  (nth (Z.to_nat month) _DAYS_BEFORE_MONTH 0 +
   (if ((2 <? month) && _is_leap year)%bool then 1 else 0))%Z.

Definition _ymd2ord (year month day : Z) : Z :=
  (_days_before_year year + _days_before_month year month + day)%Z.

(** A parsed date; its time of day is midnight. *)
Record datetime : Type := {
  dt_year : Z;
  dt_month : Z;
  dt_day : Z
}.

Definition toordinal (d : datetime) : Z :=
  _ymd2ord (dt_year d) (dt_month d) (dt_day d).

(** [datetime.strptime(s, '%Y-%m-%d')]; [None] stands for the
    [ValueError] it raises. *)
Definition strptime (s : string) : option datetime :=
  match format_regex s with
  | (y, m, d, EmptyString) :: _ =>
      if ((1 <=? y) && (1 <=? m) && (m <=? 12) &&
          (1 <=? d) && (d <=? _days_in_month y m))%Z
      then Some {| dt_year := y; dt_month := m; dt_day := d |}
      else None
  | _ => None
  end.

(** The [try] body; the bare [except] turns any failure into [365]. *)
Definition _calculate_time_span (start_date end_date : string) : Z :=
  match strptime start_date with
  | Some start =>
      match strptime end_date with
      | Some end_ => (toordinal end_ - toordinal start)%Z
      | None => 365%Z
      end
  | None => 365%Z
  end.

(** ** Change/report composer *)

(** A satellite image descriptor ([Dict]): the analyzer reads its ['date']
    by subscript and its ['cloud_coverage'] with [.get(..., 0)]. *)
Record image : Type := {
  date : string;
  cloud_coverage : option R
}.

Module ChangeResult.

Record temporal_analysis_t : Type := {
  historical_period : string;
  current_period : string;
  time_span_days : Z
}.

Record risk_factors_t : Type := {
  area_size : R;
  geographic_risk : R;
  cloud_coverage_impact : R
}.

Record detailed_report_t : Type := {
  ndvi_change : R;
  vegetation_loss : bool;
  analysis_method : string;
  temporal_analysis : temporal_analysis_t;
  risk_factors : risk_factors_t
}.

Record t : Type := {
  deforestation_detected : bool;
  confidence_score : R;
  area_analyzed : R;
  forest_loss_area : R;
  change_percentage : R;
  detailed_report : detailed_report_t
}.

End ChangeResult.

Module FullReport.

Record vegetation_indices_t : Type := {
  current_ndvi : R;
  historical_ndvi : R;
  ndvi_change : R;
  evi : R
}.

Record land_cover_classification_t : Type := {
  forest_percentage : R;
  agricultural_percentage : R;
  other_percentage : R;
  water_percentage : R
}.

Record risk_assessment_t : Type := {
  deforestation_risk : string;
  geographic_complexity : R;
  monitoring_priority : string
}.

Record detailed_metrics_t : Type := {
  vegetation_indices : vegetation_indices_t;
  land_cover_classification : land_cover_classification_t;
  risk_assessment : risk_assessment_t
}.

Record t : Type := {
  area_analyzed : R;
  forest_loss_detected : bool;
  forest_loss_area : R;
  change_percentage : R;
  analysis_confidence : R;
  recommendations : list string;
  detailed_metrics : detailed_metrics_t
}.

End FullReport.

(** [d.get('cloud_coverage', 0)]. *)
Definition get_cloud_coverage (i : image) : R :=
  match cloud_coverage i with
  | Some c => c
  | None => 0
  end.

(** [(forest_loss_area / area_hectares * 100) if area_hectares > 0 else 0]. *)
Definition percentage_of (forest_loss_area area_hectares : R) : result R :=
  if Rltb 0 area_hectares then
    q <-? py_div forest_loss_area area_hectares ;; Ok (q * 100)
  else Ok 0.

Section Composer.

Variable G : generator.

Definition analyze_change (historical_image current_image : image)
    (coordinates : list coord) : M G ChangeResult.t :=
  let area_hectares := _calculate_area coordinates in
  let area_factor := py_min (area_hectares / 100) 1 in
  location_factor <- lift (_get_location_risk_factor coordinates) ;;
  let base_probability := 0.3 in
  let deforestation_probability :=
    base_probability * (area_factor + location_factor) / 2 in
  let deforestation_probability :=
    py_min (py_max deforestation_probability 0.1) 0.9 in
  let deforestation_detected := Rltb 0.5 deforestation_probability in
  '(forest_loss_area, ndvi_change) <-
    (if deforestation_detected then
       u <- uniform 0.1 0.4 ;;
       v <- uniform 0.2 0.4 ;;
       ret (area_hectares * u, - v)
     else
       v <- uniform (-0.1) 0.1 ;;
       ret (0, v)) ;;
  change_percentage <- lift (percentage_of forest_loss_area area_hectares) ;;
  ret {|
    ChangeResult.deforestation_detected := deforestation_detected;
    ChangeResult.confidence_score := deforestation_probability;
    ChangeResult.area_analyzed := area_hectares;
    ChangeResult.forest_loss_area := forest_loss_area;
    ChangeResult.change_percentage := change_percentage;
    ChangeResult.detailed_report := {|
      ChangeResult.ndvi_change := ndvi_change;
      ChangeResult.vegetation_loss := deforestation_detected;
      ChangeResult.analysis_method := "NDVI comparison with ML enhancement";
      ChangeResult.temporal_analysis := {|
        ChangeResult.historical_period := date historical_image;
        ChangeResult.current_period := date current_image;
        ChangeResult.time_span_days :=
          _calculate_time_span (date historical_image) (date current_image)
      |};
      ChangeResult.risk_factors := {|
        ChangeResult.area_size := area_factor;
        ChangeResult.geographic_risk := location_factor;
        ChangeResult.cloud_coverage_impact :=
          py_max (get_cloud_coverage historical_image)
                 (get_cloud_coverage current_image) / 100
      |}
    |}
  |}.

Definition recommendations_detected : list string :=
  [ "🚨 Vérification terrain immédiate recommandée"%string;
    "📋 Conformité EUDR à risque - documentation requise"%string;
    "🤝 Contact urgent avec les fournisseurs concernés"%string;
    "📊 Audit complémentaire de la chaîne d'approvisionnement"%string ].

Definition recommendations_clear : list string :=
  [ "✅ Zone conforme aux exigences EUDR actuelles"%string;
    "📈 Surveillance continue recommandée (monitoring trimestriel)"%string;
    "📋 Documentation à jour et conforme"%string ].

Definition recommendation_high_frequency : string :=
  "🛰️ Surveillance satellite haute fréquence recommandée"%string.

Definition full_analysis (coordinates : list coord) : M G FullReport.t :=
  let area_hectares := _calculate_area coordinates in
  location_risk <- lift (_get_location_risk_factor coordinates) ;;
  forest_loss_detected <-
    (if Rltb 0.5 location_risk then choice [true; false] else ret false) ;;
  forest_loss_area <-
    (if forest_loss_detected : bool then
       u <- uniform 0 0.3 ;; ret (area_hectares * u)
     else ret 0) ;;
  change_percentage <- lift (percentage_of forest_loss_area area_hectares) ;;
  let confidence_factors :=
    [ if Rltb 10 area_hectares then 0.9 else 0.7;
      0.95;
      0.9 - (location_risk * 0.2) ] in
  analysis_confidence <-
    lift (py_div (py_sum confidence_factors)
                 (INR (length confidence_factors))) ;;
  let recommendations := [] in
  let recommendations :=
    if forest_loss_detected
    then (recommendations ++ recommendations_detected)%list
    else (recommendations ++ recommendations_clear)%list in
  let recommendations :=
    if Rltb 100 area_hectares
    then (recommendations ++ [recommendation_high_frequency])%list
    else recommendations in
  current_ndvi <- uniform 0.3 0.8 ;;
  historical_ndvi <- uniform 0.4 0.9 ;;
  ndvi_change <- uniform (-0.3) 0.1 ;;
  evi <- uniform 0.2 0.7 ;;
  forest_percentage <-
    (if negb forest_loss_detected then uniform 60 90 else uniform 40 70) ;;
  agricultural_percentage <- uniform 5 30 ;;
  other_percentage <- uniform 5 15 ;;
  water_percentage <- uniform 0 5 ;;
  ret {|
    FullReport.area_analyzed := area_hectares;
    FullReport.forest_loss_detected := forest_loss_detected;
    FullReport.forest_loss_area := forest_loss_area;
    FullReport.change_percentage := change_percentage;
    FullReport.analysis_confidence := analysis_confidence;
    FullReport.recommendations := recommendations;
    FullReport.detailed_metrics := {|
      FullReport.vegetation_indices := {|
        FullReport.current_ndvi := current_ndvi;
        FullReport.historical_ndvi := historical_ndvi;
        FullReport.ndvi_change := ndvi_change;
        FullReport.evi := evi
      |};
      FullReport.land_cover_classification := {|
        FullReport.forest_percentage := forest_percentage;
        FullReport.agricultural_percentage := agricultural_percentage;
        FullReport.other_percentage := other_percentage;
        FullReport.water_percentage := water_percentage
      |};
      FullReport.risk_assessment := {|
        FullReport.deforestation_risk :=
          if Rltb 0.7 location_risk then "HIGH"
          else if Rltb 0.4 location_risk then "MEDIUM" else "LOW";
        FullReport.geographic_complexity := location_risk;
        FullReport.monitoring_priority :=
          if forest_loss_detected then "URGENT" else "STANDARD"
      |}
    |}
  |}.

End Composer.

Arguments analyze_change G historical_image current_image coordinates _ : rename.
Arguments full_analysis G coordinates _ : rename.

(** A generator that replays two tapes: the floats [random()] returns and
    the integers [_randbelow] reduces below its bound. *)
Definition tape_generator (floats : nat -> R) (ints : nat -> nat)
    : generator := {|
  rng := nat;
  random := fun k => (floats k, S k);
  randbelow := fun n k => ((ints k mod n)%nat, S k)
|}.

(** The arithmetic-mean centroid of a vertex list, the quantity the risk
    rules are phrased with. *)
Definition centroid_lat (coordinates : list coord) : R :=
  py_sum (map idx1 coordinates) / INR (length coordinates).

Definition centroid_lon (coordinates : list coord) : R :=
  py_sum (map idx0 coordinates) / INR (length coordinates).

(** The factors of the region table. *)
Definition risk_levels : list R := [0.8; 0.7; 0.6; 0.2; 0.4].

(** ** Notions the properties are stated with *)

(** The region table as a function of the centroid. *)
Definition classify (center_lat center_lon : R) : R :=
  if Rleb (-10) center_lat && Rleb center_lat 10 &&
     Rleb (-80) center_lon && Rleb center_lon (-40) then 0.8
  else if Rleb (-10) center_lat && Rleb center_lat 10 &&
          Rleb 10 center_lon && Rleb center_lon 35 then 0.7
  else if Rleb (-10) center_lat && Rleb center_lat 20 &&
          Rleb 90 center_lon && Rleb center_lon 150 then 0.6
  else if Rleb 35 center_lat && Rleb center_lat 70 &&
          Rleb (-10) center_lon && Rleb center_lon 50 then 0.2
  else 0.4.

(** The clamped probability of [analyze_change], from the area and the
    location factor. *)
Definition probability (area_hectares location_factor : R) : R :=
  py_min (py_max (0.3 * (py_min (area_hectares / 100) 1 + location_factor) / 2)
                 0.1) 0.9.


(** The mathematical clamp of the specification. *)
Definition clamp (x lo hi : R) : R := Rmin (Rmax x lo) hi.

(** The dates [datetime] accepts. *)
Definition valid_date (d : datetime) : Prop :=
  (1 <= dt_year d <= 9999 /\ 1 <= dt_month d <= 12 /\
   1 <= dt_day d <= _days_in_month (dt_year d) (dt_month d))%Z.

(** The text [d.isoformat()] of a date: year, month and day zero-padded to
    four, two and two digits, the shape of the date ranges the endpoints
    pass. *)
Definition digit_char (k : Z) : ascii := ascii_of_nat (48 + Z.to_nat k)%nat.

Definition isoformat (d : datetime) : string :=
  let y := dt_year d in
  let m := dt_month d in
  let dd := dt_day d in
  (String (digit_char (y / 1000)) (String (digit_char (y / 100 mod 10))
  (String (digit_char (y / 10 mod 10)) (String (digit_char (y mod 10))
  (String "-" (String (digit_char (m / 10)) (String (digit_char (m mod 10))
  (String "-" (String (digit_char (dd / 10)) (String (digit_char (dd mod 10))
   EmptyString))))))))))%Z.

(** [d.strftime('%Y-%m-%d')] of a date: the C library prints [%Y] as the
    decimal year without padding (the year 999 gives ["999-12-31"]) and
    [%m], [%d] on two digits. *)
Definition year_text (y : Z) : string :=
  (if y <? 10 then String (digit_char y) EmptyString
   else if y <? 100 then
     String (digit_char (y / 10)) (String (digit_char (y mod 10)) EmptyString)
   else if y <? 1000 then
     String (digit_char (y / 100)) (String (digit_char (y / 10 mod 10))
     (String (digit_char (y mod 10)) EmptyString))
   else
     String (digit_char (y / 1000)) (String (digit_char (y / 100 mod 10))
     (String (digit_char (y / 10 mod 10)) (String (digit_char (y mod 10))
      EmptyString))))%Z.

Definition two_digits (k : Z) : string :=
  (String (digit_char (k / 10)) (String (digit_char (k mod 10))
   EmptyString))%Z.

Definition strftime (d : datetime) : string :=
  (year_text (dt_year d) ++ "-" ++ two_digits (dt_month d) ++ "-"
   ++ two_digits (dt_day d))%string.

(** The day after [d] in the calendar. *)
Definition next_day (d : datetime) : datetime :=
  (if dt_day d <? _days_in_month (dt_year d) (dt_month d) then
     {| dt_year := dt_year d; dt_month := dt_month d; dt_day := dt_day d + 1 |}
   else if dt_month d <? 12 then
     {| dt_year := dt_year d; dt_month := dt_month d + 1; dt_day := 1 |}
   else {| dt_year := dt_year d + 1; dt_month := 1; dt_day := 1 |})%Z.

(** ** Concrete inputs *)

(** Generators and inputs for the concrete instances. *)
Definition zero_tape : generator :=
  tape_generator (fun _ => 0) (fun _ => 0%nat).

Definition demo_image (d : string) : image :=
  {| date := d; cloud_coverage := Some 5 |}.

Definition triangle : list coord := [(0, 0); (1, 0); (1, 1)].

(** A vertex list around (lat = 0, lon = 20). *)
Definition polygon_congo : list coord := [(19, -1); (21, -1); (20, 2)].

(** The square of the specification's concrete case. *)
Definition square_plot : list coord :=
  [(0, 0); (0, 0.01); (0.01, 0.01); (0.01, 0)].

(** Two dates of the year 2023. *)
Definition new_year_2023 : datetime :=
  {| dt_year := 2023; dt_month := 1; dt_day := 1 |}.
Definition new_year_eve_2023 : datetime :=
  {| dt_year := 2023; dt_month := 12; dt_day := 31 |}.

(** ** The regions of the risk table *)

(** A latitude/longitude box of the region table, bounds included. *)
Definition in_box (lat_lo lat_hi lon_lo lon_hi lat lon : R) : Prop :=
  lat_lo <= lat <= lat_hi /\ lon_lo <= lon <= lon_hi.

Definition south_america : R -> R -> Prop := in_box (-10) 10 (-80) (-40).
Definition central_africa : R -> R -> Prop := in_box (-10) 10 10 35.
Definition southeast_asia : R -> R -> Prop := in_box (-10) 20 90 150.
Definition europe : R -> R -> Prop := in_box 35 70 (-10) 50.

(** ** Calendar order *)

(** Calendar order on dates: by year, then month, then day. *)
Definition date_lt (d1 d2 : datetime) : Prop :=
  (dt_year d1 < dt_year d2 \/
   (dt_year d1 = dt_year d2 /\
    (dt_month d1 < dt_month d2 \/
     (dt_month d1 = dt_month d2 /\ dt_day d1 < dt_day d2))))%Z.

(** The number of days of a year. *)
Definition year_length (y : Z) : Z :=
  if _is_leap y then 366%Z else 365%Z.

(** ** Imagery provider: [CopernicusService] *)

(** What the services and the endpoints can raise: an exception of the
    analyzer's arithmetic, a failure of the Copernicus client
    ([geojson_to_wkt], [api.query]), a missing dictionary key, or an
    [HTTPException] with its status code. *)
Inductive service_exn : Type :=
| Arithmetic (e : exn)
| ApiError
| KeyError
| HTTPException (status_code : nat).

Inductive outcome (A : Type) : Type :=
| Done (a : A)
| Failed (e : service_exn).
Arguments Done {A} a.
Arguments Failed {A} e.

Definition obind {A B : Type} (c : outcome A) (k : A -> outcome B)
    : outcome B :=
  match c with
  | Done a => k a
  | Failed e => Failed e
  end.

Notation "x <-! c ;; k" := (obind c (fun x => k))
  (at level 61, c at next level, right associativity) : monad_scope.
Notation "' p <-! c ;; k" := (obind c (fun x => let 'p := x in k))
  (at level 61, p pattern, c at next level, right associativity)
  : monad_scope.

Definition of_result {A : Type} (c : result A) : outcome A :=
  match c with
  | Ok a => Done a
  | Raise e => Failed (Arithmetic e)
  end.

(** [try: body except Exception: handler]. *)
Definition try_except {A : Type} (body : outcome A)
    (handler : service_exn -> outcome A) : outcome A :=
  match body with
  | Done a => Done a
  | Failed e => handler e
  end.

(** The image dictionary both branches of [get_satellite_image] build. *)
Module SatelliteImage.

Record t : Type := {
  url : string;
  date : string;
  cloud_coverage : R;
  resolution : string;
  product_id : string
}.

End SatelliteImage.

(** The dictionary as the analyzer reads it. *)
Definition as_image (i : SatelliteImage.t) : image :=
  {| date := SatelliteImage.date i;
     cloud_coverage := Some (SatelliteImage.cloud_coverage i) |}.

(** A Sentinel-2 product of [api.query]: its key and the two entries of
    its information the service reads. *)
Record product : Type := {
  product_key : string;
  beginposition : datetime;
  cloudcoverpercentage : R
}.

(** What the Copernicus client does for one call: [geojson_to_wkt] or
    [api.query] raises, or the query returns its products in order. *)
Inductive api_answer : Type :=
| ApiRaises
| ApiProducts (products : list product).

(** [min(products.items(), key=lambda x: x[1]['cloudcoverpercentage'])]:
    the first product of least cloud cover. *)
Fixpoint min_by_cloud (best : product) (products : list product) : product :=
  match products with
  | [] => best
  | p :: rest =>
      min_by_cloud
        (if Rltb (cloudcoverpercentage p) (cloudcoverpercentage best)
         then p else best) rest
  end.

(** ** HTTP endpoints of [main.py] *)

Module EUDRResponse.

Record t : Type := {
  coordinates : list coord;
  is_eudr_compliant : bool;
  deforestation_detected : bool;
  analysis_date : string;
  confidence_score : R;
  current_image_url : string;
  historical_image_url : string;
  report : ChangeResult.detailed_report_t
}.

End EUDRResponse.

(** [GeoJSONRequest]: the ['coordinates'] entry of [request.geojson], if
    the dictionary has one. *)
Record GeoJSONRequest : Type := {
  geojson_coordinates : option (list coord)
}.

(** The answers of the collaborators during one request: what
    [cache_service.get] finds under the request's key, what the Copernicus
    client does for the current and the historical image, the identifiers
    [uuid.uuid4] draws, and [datetime.now().isoformat()]. *)
Record collaborators : Type := {
  cached_result : option EUDRResponse.t;
  api_current : option api_answer;
  api_historical : option api_answer;
  uuid_current : string;
  uuid_historical : string;
  now : string
}.

(** What a request leaves behind: the value given to [cache_service.set]
    and the analysis given to [send_deforestation_alert]. *)
Record effects : Type := {
  cache_set : option EUDRResponse.t;
  alert_sent : option ChangeResult.t
}.

Definition no_effects : effects :=
  {| cache_set := None; alert_sent := None |}.

(** An endpoint answers with its response model or with an HTTP error. *)
Inductive http (A : Type) : Type :=
| Response (a : A)
| HTTPError (status_code : nat).
Arguments Response {A} a.
Arguments HTTPError {A} status_code.

(** The handler every endpoint ends with:
    [except Exception as e: raise HTTPException(status_code=500, ...)]. *)
Definition internal_error {A : Type} (body : outcome A) : http A :=
  match body with
  | Done a => Response a
  | Failed _ => HTTPError 500
  end.

Section Services.

(** The text an f-string gives a float. *)
Variable float_str : R -> string.

(** [_get_demo_image]; [image_id] is the [str(uuid.uuid4())] it draws. *)
Definition _get_demo_image (image_id : string) (coordinates : list coord)
    (date_range : string * string) : outcome SatelliteImage.t :=
  center_lat <-! of_result (py_div (py_sum (map idx1 coordinates))
                                   (INR (length coordinates))) ;;
  center_lon <-! of_result (py_div (py_sum (map idx0 coordinates))
                                   (INR (length coordinates))) ;;
  Done {|
    SatelliteImage.url :=
      ("https://maps.googleapis.com/maps/api/staticmap?center="
       ++ float_str center_lat ++ "," ++ float_str center_lon
       ++ "&zoom=15&size=800x600&maptype=satellite&key=demo")%string;
    SatelliteImage.date := fst date_range;
    SatelliteImage.cloud_coverage := 5;
    SatelliteImage.resolution := "10m";
    SatelliteImage.product_id := image_id
  |}.

(** [get_satellite_image]; [api] is [None] when [self.api] is unset and
    otherwise what the client does for this call. *)
Definition get_satellite_image (api : option api_answer) (image_id : string)
    (coordinates : list coord) (date_range : string * string)
    : outcome SatelliteImage.t :=
  try_except
    (match api with
     | None => _get_demo_image image_id coordinates date_range
     | Some ApiRaises => Failed ApiError
     | Some (ApiProducts []) =>
         _get_demo_image image_id coordinates date_range
     | Some (ApiProducts (p :: rest)) =>
         let best_product := min_by_cloud p rest in
         Done {|
           SatelliteImage.url :=
             ("https://scihub.copernicus.eu/dhus/odata/v1/Products('"
              ++ product_key best_product ++ "')/\$value")%string;
           SatelliteImage.date := strftime (beginposition best_product);
           SatelliteImage.cloud_coverage :=
             cloudcoverpercentage best_product;
           SatelliteImage.resolution := "10m";
           SatelliteImage.product_id := product_key best_product
         |}
     end)
    (fun _ => _get_demo_image image_id coordinates date_range).

Variable G : generator.

(** The [try] body of [check_eudr_compliance], for one request and the
    collaborators' answers to it.  [request.geojson['coordinates']] raises
    [KeyError] when the entry is missing (the cache key is built from it
    first); a cached result is returned as it is; empty coordinates raise
    [HTTPException(400)] inside the [try]; then come the current and the
    historical image, the analysis, the cache write and, when
    deforestation is detected, the alert.  The response models are taken
    to accept the dictionaries built here, and the alert to be delivered
    ([notification_service] is not part of the sources at hand). *)
Definition check_eudr_compliance_body (env : collaborators)
    (request : GeoJSONRequest) (g : rng G)
    : outcome (EUDRResponse.t * effects * rng G) :=
  coordinates <-! match geojson_coordinates request with
                  | Some c => Done c
                  | None => Failed KeyError
                  end ;;
  match cached_result env with
  | Some cached => Done (cached, no_effects, g)
  | None =>
      validated <-! (if (length coordinates =? 0)%nat
                     then Failed (HTTPException 400) else Done tt) ;;
      current_image <-!
        get_satellite_image (api_current env) (uuid_current env)
          coordinates ("2023-01-01", "2024-12-31")%string ;;
      historical_image <-!
        get_satellite_image (api_historical env) (uuid_historical env)
          coordinates ("2019-01-01", "2020-12-31")%string ;;
      '(analysis_result, g') <-!
        of_result (analyze_change G (as_image historical_image)
                     (as_image current_image) coordinates g) ;;
      let is_compliant :=
        Bool.eqb (ChangeResult.deforestation_detected analysis_result) false in
      let response_data := {|
        EUDRResponse.coordinates := coordinates;
        EUDRResponse.is_eudr_compliant := is_compliant;
        EUDRResponse.deforestation_detected :=
          ChangeResult.deforestation_detected analysis_result;
        EUDRResponse.analysis_date := now env;
        EUDRResponse.confidence_score :=
          ChangeResult.confidence_score analysis_result;
        EUDRResponse.current_image_url := SatelliteImage.url current_image;
        EUDRResponse.historical_image_url :=
          SatelliteImage.url historical_image;
        EUDRResponse.report := ChangeResult.detailed_report analysis_result
      |} in
      Done (response_data,
            {| cache_set := Some response_data;
               alert_sent :=
                 if ChangeResult.deforestation_detected analysis_result
                 then Some analysis_result else None |},
            g')
  end.

(** The endpoint: the body under its [except Exception] handler. *)
Definition check_eudr_compliance (env : collaborators)
    (request : GeoJSONRequest) (g : rng G)
    : http (EUDRResponse.t * effects * rng G) :=
  internal_error (check_eudr_compliance_body env request g).

(** [analyze_deforestation]: the report of [full_analysis], or HTTP 500
    for any exception of its [try] body. *)
Definition analyze_deforestation (request : GeoJSONRequest) (g : rng G)
    : http (FullReport.t * rng G) :=
  internal_error
    (coordinates <-! match geojson_coordinates request with
                     | Some c => Done c
                     | None => Failed KeyError
                     end ;;
     of_result (full_analysis G coordinates g)).

End Services.

(** The client answered with at least one product. *)
Definition has_products (api : option api_answer) : Prop :=
  exists p rest, api = Some (ApiProducts (p :: rest)).

(** A product whose acquisition date is a calendar date of the year 1000
    or later, which [strftime] writes with a four-digit year. *)
Definition four_digit_year (p : product) : Prop :=
  valid_date (beginposition p) /\ (1000 <= dt_year (beginposition p))%Z.

(** ** Concrete inputs for the services *)

(** Two products of a Copernicus query, the second one clearer. *)
Definition product_a : product :=
  {| product_key := "a"; beginposition := new_year_2023;
     cloudcoverpercentage := 12 |}.
Definition product_b : product :=
  {| product_key := "b"; beginposition := new_year_eve_2023;
     cloudcoverpercentage := 3 |}.

(** A request served without cache and without Copernicus account. *)
Definition demo_collaborators : collaborators :=
  {| cached_result := None;
     api_current := None;
     api_historical := None;
     uuid_current := "00000000-0000-4000-8000-000000000001";
     uuid_historical := "00000000-0000-4000-8000-000000000002";
     now := "2026-11-04T00:00:00" |}.

(** The same request when the Copernicus client finds products. *)
Definition api_collaborators : collaborators :=
  {| cached_result := None;
     api_current := Some (ApiProducts [product_a; product_b]);
     api_historical := Some (ApiProducts [product_a]);
     uuid_current := "00000000-0000-4000-8000-000000000001";
     uuid_historical := "00000000-0000-4000-8000-000000000002";
     now := "2026-11-04T00:00:00" |}.

(** A float printer for the concrete instances. *)
Definition no_float_str (x : R) : string := "0.0".

(** ** The analyzer on binary64 floats *)

(** The arithmetic core of [DeforestationAnalyzer] on Rocq's primitive
    floats, which are the IEEE 754 binary64 numbers of Python's [float]:
    [+], [-], [*], [/] round to nearest even, overflow to an infinity and
    propagate NaN; [<?], [<=?] and [=?] are Python's [<], [<=] and [==]
    (false as soon as one side is NaN).  A decimal literal denotes the
    nearest binary64 number, as in Python; integer literals and [len(...)]
    enter float arithmetic as the floats of the same value. *)
Module Binary64.

Import Floats.
Local Open Scope float_scope.

(** [min(a, b)] keeps [a] unless [b < a]; [max(a, b)] keeps [a] unless
    [b > a]: with a NaN first argument both return NaN. *)
Definition py_min (a b : float) : float := if b <? a then b else a.
Definition py_max (a b : float) : float := if a <? b then b else a.

(** [math.radians(x)] is [x * (pi / 180)], with the constant computed in
    binary64. *)
Definition deg_to_rad : float := 3.141592653589793 / 180.
Definition radians (deg : float) : float := deg * deg_to_rad.

(** A position [[lon, lat]]. *)
Definition coord : Type := (float * float)%type.
Definition idx0 (c : coord) : float := fst c.
Definition idx1 (c : coord) : float := snd c.

(** The float of [len(coordinates)] (a list is shorter than 2^63). *)
Definition float_of_len (n : nat) : float :=
  of_uint63 (Uint63.of_Z (Z.of_nat n)).

(** [sum(...)] over a generator of floats: the items are added to [0] one
    after the other, from left to right, each addition rounding. *)
Definition py_sum (l : list float) : float := fold_left add l 0.

(** [a / len(coordinates)]: Python raises on a zero divisor. *)
Definition py_div_len (a : float) (n : nat) : result float :=
  if (n =? 0)%nat then Raise ZeroDivisionError else Ok (a / float_of_len n).

Section Cosine.

(** libm's [cos]. *)
Variable cos : float -> float.

(** [math.cos]: CPython raises [ValueError] ("math domain error") when
    libm's result is NaN for an argument that is not, which is the case of
    the infinities. *)
Definition math_cos (x : float) : result float :=
  let r := cos x in
  if is_nan r && negb (is_nan x) then Raise ValueError else Ok r.

(** The nested helper [deg_to_meters(lat_deg, lon_deg)]. *)
Definition deg_to_meters (lat_deg lon_deg : float) : result (float * float) :=
  let lat_m := lat_deg * 111320 in
  c <-? math_cos (radians lat_deg) ;;
  let lon_m := lon_deg * 111320 * c in
  Ok (lat_m, lon_m).

(** [for i in range(n)]: the iterations of [range] still to run, from the
    running [area]. *)
Fixpoint shoelace_loop (coordinates : list coord) (n : nat)
    (range : list nat) (area : float) : result float :=
  match range with
  | [] => Ok area
  | i :: range' =>
      let j := ((i + 1) mod n)%nat in
      let ci := nth i coordinates (0, 0) in
      let cj := nth j coordinates (0, 0) in
      p1 <-? deg_to_meters (idx1 ci) (idx0 ci) ;;
      p2 <-? deg_to_meters (idx1 cj) (idx0 cj) ;;
      let '(lat1, lon1) := p1 in
      let '(lat2, lon2) := p2 in
      shoelace_loop coordinates n range' (area + (lat1 * lon2 - lat2 * lon1))
  end.

Definition _calculate_area (coordinates : list coord) : result float :=
  if (length coordinates <? 3)%nat then Ok 0
  else
    let n := length coordinates in
    area <-? shoelace_loop coordinates n (seq 0 n) 0 ;;
    let area := abs area / 2 in
    let area_hectares := area / 10000 in
    Ok (py_max area_hectares 1).

End Cosine.

Definition _get_location_risk_factor (coordinates : list coord)
    : result float :=
  center_lat <-? py_div_len (py_sum (map idx1 coordinates))
                            (length coordinates) ;;
  center_lon <-? py_div_len (py_sum (map idx0 coordinates))
                            (length coordinates) ;;
  if (-10 <=? center_lat) && (center_lat <=? 10) &&
     (-80 <=? center_lon) && (center_lon <=? -40) then Ok 0.8
  else if (-10 <=? center_lat) && (center_lat <=? 10) &&
          (10 <=? center_lon) && (center_lon <=? 35) then Ok 0.7
  else if (-10 <=? center_lat) && (center_lat <=? 20) &&
          (90 <=? center_lon) && (center_lon <=? 150) then Ok 0.6
  else if (35 <=? center_lat) && (center_lat <=? 70) &&
          (-10 <=? center_lon) && (center_lon <=? 50) then Ok 0.2
  else Ok 0.4.

(** A satellite image descriptor, as the analyzer reads it. *)
Record image : Type := {
  date : string;
  cloud_coverage : option float
}.

Module ChangeResult.

Record temporal_analysis_t : Type := {
  historical_period : string;
  current_period : string;
  time_span_days : Z
}.

Record risk_factors_t : Type := {
  area_size : float;
  geographic_risk : float;
  cloud_coverage_impact : float
}.

Record detailed_report_t : Type := {
  ndvi_change : float;
  vegetation_loss : bool;
  analysis_method : string;
  temporal_analysis : temporal_analysis_t;
  risk_factors : risk_factors_t
}.

Record t : Type := {
  deforestation_detected : bool;
  confidence_score : float;
  area_analyzed : float;
  forest_loss_area : float;
  change_percentage : float;
  detailed_report : detailed_report_t
}.

End ChangeResult.

(** [d.get('cloud_coverage', 0)]. *)
Definition get_cloud_coverage (i : image) : float :=
  match cloud_coverage i with
  | Some c => c
  | None => 0
  end.

(** [random.Random]: [random()] yields the next float and the generator's
    next state. *)
Record generator : Type := {
  rng : Type;
  random : rng -> float * rng
}.

(** [random.uniform(a, b)] is [a + (b - a) * self.random()]. *)
Definition uniform {G : generator} (a b : float) (g : rng G)
    : float * rng G :=
  let '(u, g') := random G g in (a + (b - a) * u, g').

Section Composer.

Variable cos : float -> float.
Variable G : generator.

(** [analyze_change]; the division of [change_percentage] is guarded by
    [area_hectares > 0] and does not raise. *)
Definition analyze_change (historical_image current_image : image)
    (coordinates : list coord) (g : rng G)
    : result (ChangeResult.t * rng G) :=
  area_hectares <-? _calculate_area cos coordinates ;;
  let area_factor := py_min (area_hectares / 100) 1 in
  location_factor <-? _get_location_risk_factor coordinates ;;
  let base_probability := 0.3 in
  let deforestation_probability :=
    base_probability * (area_factor + location_factor) / 2 in
  let deforestation_probability :=
    py_min (py_max deforestation_probability 0.1) 0.9 in
  let deforestation_detected := 0.5 <? deforestation_probability in
  let '(forest_loss_area, ndvi_change, g') :=
    if deforestation_detected then
      let '(u, g1) := uniform 0.1 0.4 g in
      let '(v, g2) := uniform 0.2 0.4 g1 in
      (area_hectares * u, - v, g2)
    else
      let '(v, g1) := uniform (-0.1) 0.1 g in
      (0, v, g1) in
  Ok ({|
    ChangeResult.deforestation_detected := deforestation_detected;
    ChangeResult.confidence_score := deforestation_probability;
    ChangeResult.area_analyzed := area_hectares;
    ChangeResult.forest_loss_area := forest_loss_area;
    ChangeResult.change_percentage :=
      if 0 <? area_hectares then forest_loss_area / area_hectares * 100
      else 0;
    ChangeResult.detailed_report := {|
      ChangeResult.ndvi_change := ndvi_change;
      ChangeResult.vegetation_loss := deforestation_detected;
      ChangeResult.analysis_method := "NDVI comparison with ML enhancement";
      ChangeResult.temporal_analysis := {|
        ChangeResult.historical_period := date historical_image;
        ChangeResult.current_period := date current_image;
        ChangeResult.time_span_days :=
          _calculate_time_span (date historical_image) (date current_image)
      |};
      ChangeResult.risk_factors := {|
        ChangeResult.area_size := area_factor;
        ChangeResult.geographic_risk := location_factor;
        ChangeResult.cloud_coverage_impact :=
          py_max (get_cloud_coverage historical_image)
                 (get_cloud_coverage current_image) / 100
      |}
    |}
  |}, g').

End Composer.

(** The mean centroid of a vertex list, as the classifier computes it. *)
Definition centroid_lat (coordinates : list coord) : float :=
  py_sum (map idx1 coordinates) / float_of_len (length coordinates).

Definition centroid_lon (coordinates : list coord) : float :=
  py_sum (map idx0 coordinates) / float_of_len (length coordinates).

(** The factors of the region table. *)
Definition risk_levels : list float := [0.8; 0.7; 0.6; 0.2; 0.4].

(** The region table as a function of the centroid. *)
Definition classify (center_lat center_lon : float) : float :=
  if (-10 <=? center_lat) && (center_lat <=? 10) &&
     (-80 <=? center_lon) && (center_lon <=? -40) then 0.8
  else if (-10 <=? center_lat) && (center_lat <=? 10) &&
          (10 <=? center_lon) && (center_lon <=? 35) then 0.7
  else if (-10 <=? center_lat) && (center_lat <=? 20) &&
          (90 <=? center_lon) && (center_lon <=? 150) then 0.6
  else if (35 <=? center_lat) && (center_lat <=? 70) &&
          (-10 <=? center_lon) && (center_lon <=? 50) then 0.2
  else 0.4.

(** The clamped probability of [analyze_change], from the area and the
    location factor. *)
Definition probability (area_hectares location_factor : float) : float :=
  py_min (py_max (0.3 * (py_min (area_hectares / 100) 1 + location_factor) / 2)
                 0.1) 0.9.

(** [math.cos] returns on the latitude of a vertex. *)
Definition cos_defined (cos : float -> float) (c : coord) : Prop :=
  exists r, math_cos cos (radians (idx1 c)) = Ok r.

(** Three vertices on the equator, the first one 1e308 degrees east: its
    longitude in metres overflows. *)
Definition overflow_ring : list coord := [(1e308, 0); (0, 0); (1, 0)].

(** Three vertices on the meridian of longitude 20, in Chad and the
    Central African Republic. *)
Definition meridian_plot : list coord := [(20, 12.9); (20, 11.3); (20, 5.8)].

Definition triangle : list coord := [(0, 0); (1, 0); (1, 1)].

(** Vertex lists around (lat = 0, lon = 20). *)
Definition polygon_congo : list coord := [(19, -1); (21, -1); (20, 2)].
Definition segment_congo : list coord := [(18, 0); (22, 0)].

(** A cosine for the concrete instances: the Taylor polynomial of degree 6
    at 0, evaluated in binary64. *)
Definition cos_taylor (x : float) : float :=
  let x2 := x * x in
  1 - x2 / 2 + x2 * x2 / 24 - x2 * x2 * x2 / 720.

(** One float of [[0, 1)] for every draw. *)
Definition constant_generator (u : float) : generator :=
  {| rng := nat; random := fun k => (u, S k) |}.

Definition demo_image (d : string) : image :=
  {| date := d; cloud_coverage := Some 5 |}.

End Binary64.

(** * Properties *)

(** ** Basic facts on the numeric helpers *)

Lemma Rltb_true (x y : R) : Rltb x y = true <-> x < y.
Proof. unfold Rltb; destruct (Rlt_dec x y); split; intros; try easy. Qed.

Lemma Rltb_false (x y : R) : Rltb x y = false <-> y <= x.
Proof.
  unfold Rltb; destruct (Rlt_dec x y); split; intros; try easy; lra.
Qed.

Lemma Rleb_true (x y : R) : Rleb x y = true <-> x <= y.
Proof. unfold Rleb; destruct (Rle_dec x y); split; intros; try easy. Qed.

Lemma Rleb_false (x y : R) : Rleb x y = false <-> y < x.
Proof.
  unfold Rleb; destruct (Rle_dec x y); split; intros; try easy; lra.
Qed.

Lemma py_max_Rmax (a b : R) : py_max a b = Rmax a b.
Proof.
  unfold py_max, Rmax.
  destruct (Rltb a b) eqn:E; destruct (Rle_dec a b); try reflexivity.
  - apply Rltb_true in E; lra.
  - apply Rltb_false in E; lra.
Qed.

Lemma py_min_Rmin (a b : R) : py_min a b = Rmin a b.
Proof.
  unfold py_min, Rmin.
  destruct (Rltb b a) eqn:E; destruct (Rle_dec a b); try reflexivity.
  - apply Rltb_true in E; lra.
  - apply Rltb_false in E; lra.
Qed.


Lemma py_max_lower_l (a b : R) : a <= py_max a b.
Proof. rewrite py_max_Rmax; apply Rmax_l. Qed.

Lemma py_min_upper_r (a b : R) : py_min a b <= b.
Proof. rewrite py_min_Rmin; apply Rmin_r. Qed.

Lemma py_min_upper_l (a b : R) : py_min a b <= a.
Proof. rewrite py_min_Rmin; apply Rmin_l. Qed.


Lemma py_max_upper (a b c : R) : a <= c -> b <= c -> py_max a b <= c.
Proof. intros; rewrite py_max_Rmax; apply Rmax_lub; assumption. Qed.

(** ** The analyzer on binary64 floats *)

Section Binary64Facts.

Import Floats.
Local Open Scope float_scope.

(** The order of binary64, from the specification of the primitive
    comparisons. *)
Lemma SFcompare_antisym (x y : SpecFloat.spec_float) :
  SFcompare y x = option_map CompOpp (SFcompare x y).
Proof.
  destruct x as [sx|sx| |sx mx ex], y as [sy|sy| |sy my ey]; simpl;
    try reflexivity;
    try (destruct sx; reflexivity);
    try (destruct sy; reflexivity);
    try (destruct sx, sy; reflexivity).
  destruct sx, sy; try reflexivity;
    rewrite (Z.compare_antisym ex ey);
    destruct (ex ?= ey)%Z; simpl; try reflexivity;
    change Eq with (CompOpp Eq) at 1;
    rewrite <- (Pos.compare_cont_antisym mx my Eq);
    destruct (Pos.compare_cont Eq mx my); reflexivity.
Qed.

Lemma is_nan_false (x : float) :
  is_nan x = false -> Prim2SF x <> S754_nan.
Proof.
  unfold is_nan; rewrite eqb_spec; unfold SFeqb.
  intros H E; rewrite E in H; discriminate.
Qed.

Lemma SFcompare_defined (x y : SpecFloat.spec_float) :
  x <> S754_nan -> y <> S754_nan -> exists c, SFcompare x y = Some c.
Proof.
  destruct x, y; simpl; intros; try congruence; eexists; reflexivity.
Qed.

Lemma ltb_false_leb (x y : float) :
  is_nan x = false -> is_nan y = false ->
  (x <? y) = false -> (y <=? x) = true.
Proof.
  intros Hx Hy; apply is_nan_false in Hx, Hy.
  rewrite ltb_spec, leb_spec; unfold SFltb, SFleb.
  rewrite (SFcompare_antisym (Prim2SF x) (Prim2SF y)).
  destruct (SFcompare_defined _ _ Hx Hy) as [c ->]; simpl.
  destruct c; simpl; congruence.
Qed.

Lemma not_nan_cases (x : float) : is_nan x = true \/ is_nan x = false.
Proof. destruct (is_nan x); auto. Qed.


Lemma b64_probability_clamped (a f : float) :
  is_nan (Binary64.probability a f) = true \/
  ((0.1 <=? Binary64.probability a f) = true /\
   (Binary64.probability a f <=? 0.9) = true).
Proof.
  unfold Binary64.probability.
  set (p := 0.3 * (Binary64.py_min (a / 100) 1 + f) / 2).
  unfold Binary64.py_min, Binary64.py_max.
  destruct (p <? 0.1) eqn:E1.
  - right; split; reflexivity.
  - destruct (0.9 <? p) eqn:E2.
    + right; split; reflexivity.
    + destruct (not_nan_cases p) as [H|H]; [left; exact H|right].
      split; apply ltb_false_leb; try reflexivity; assumption.
Qed.


Lemma SFcompare_eq_l (a b c : SpecFloat.spec_float) :
  SFcompare a b = Some Eq -> SFcompare a c = SFcompare b c.
Proof.
  destruct a as [sa|sa| |sa ma ea], b as [sb|sb| |sb mb eb]; simpl;
    try discriminate;
    try (destruct sa; discriminate);
    try (destruct sb; discriminate).
  - intros _; destruct c; reflexivity.
  - destruct sa, sb; try discriminate; intros _; reflexivity.
  - destruct sa, sb; try discriminate;
      destruct (ea ?= eb)%Z eqn:Ee; try discriminate;
      apply Z.compare_eq in Ee; subst eb;
      destruct (Pos.compare_cont Eq ma mb) eqn:Em; try discriminate;
      apply Pos.compare_eq in Em; subst mb; reflexivity.
Qed.

Lemma eqb_leb_l (x y z : float) :
  (x =? y) = true -> (x <=? z) = (y <=? z).
Proof.
  rewrite eqb_spec, !leb_spec; unfold SFeqb, SFleb; intros H.
  rewrite (SFcompare_eq_l (Prim2SF x) (Prim2SF y)); [reflexivity|].
  destruct (SFcompare (Prim2SF x) (Prim2SF y)) as [[| |]|];
    try discriminate; reflexivity.
Qed.

Lemma eqb_leb_r (x y z : float) :
  (x =? y) = true -> (z <=? x) = (z <=? y).
Proof.
  rewrite eqb_spec, !leb_spec; unfold SFeqb, SFleb; intros H.
  rewrite (SFcompare_antisym (Prim2SF x) (Prim2SF z)).
  rewrite (SFcompare_antisym (Prim2SF y) (Prim2SF z)).
  rewrite (SFcompare_eq_l (Prim2SF x) (Prim2SF y)); [reflexivity|].
  destruct (SFcompare (Prim2SF x) (Prim2SF y)) as [[| |]|];
    try discriminate; reflexivity.
Qed.

(** The classifier on floats. *)

Lemma b64_risk_factor_empty :
  Binary64._get_location_risk_factor [] = Raise ZeroDivisionError.
Proof. reflexivity. Qed.

Lemma b64_risk_factor_nonempty (coordinates : list Binary64.coord) :
  coordinates <> [] ->
  Binary64._get_location_risk_factor coordinates =
    Ok (Binary64.classify (Binary64.centroid_lat coordinates)
                          (Binary64.centroid_lon coordinates)).
Proof.
  intros H.
  unfold Binary64._get_location_risk_factor, Binary64.py_div_len.
  destruct coordinates as [|c l]; [contradiction|].
  cbn [length Nat.eqb rbind].
  unfold Binary64.classify, Binary64.centroid_lat, Binary64.centroid_lon.
  cbn [length].
  repeat match goal with |- context [if ?b then _ else _] =>
    destruct b end; reflexivity.
Qed.

Lemma b64_risk_factor_ok_inv (coordinates : list Binary64.coord) (f : float) :
  Binary64._get_location_risk_factor coordinates = Ok f ->
  coordinates <> [] /\
  f = Binary64.classify (Binary64.centroid_lat coordinates)
                        (Binary64.centroid_lon coordinates).
Proof.
  intros H; destruct coordinates as [|c l].
  - rewrite b64_risk_factor_empty in H; discriminate.
  - rewrite b64_risk_factor_nonempty in H by discriminate.
    injection H as <-; split; [discriminate | reflexivity].
Qed.

Lemma b64_classify_levels (a b : float) :
  In (Binary64.classify a b) Binary64.risk_levels /\
  (0.2 <=? Binary64.classify a b) = true /\
  (Binary64.classify a b <=? 0.8) = true.
Proof.
  unfold Binary64.classify, Binary64.risk_levels.
  repeat match goal with |- context [if ?b then _ else _] =>
    destruct b end; (split; [simpl; auto 6 | split; reflexivity]).
Qed.

Lemma b64_classify_central_africa (a b : float) :
  (a =? 0) = true -> (b =? 20) = true -> Binary64.classify a b = 0.7.
Proof.
  intros Ha Hb; unfold Binary64.classify.
  rewrite !(eqb_leb_l a 0), !(eqb_leb_r a 0) by assumption.
  rewrite !(eqb_leb_l b 20), !(eqb_leb_r b 20) by assumption.
  reflexivity.
Qed.

(** The area on floats. *)

Section Binary64Area.

Variable cos : float -> float.

Lemma b64_deg_to_meters_defined (c : Binary64.coord) :
  Binary64.cos_defined cos c ->
  exists p, Binary64.deg_to_meters cos (Binary64.idx1 c) (Binary64.idx0 c)
            = Ok p.
Proof.
  intros [r Hr]; unfold Binary64.deg_to_meters; rewrite Hr; simpl.
  eexists; reflexivity.
Qed.

Lemma b64_shoelace_loop_defined (coordinates : list Binary64.coord)
    (range : list nat) (area : float) :
  Forall (Binary64.cos_defined cos) coordinates ->
  coordinates <> [] ->
  (forall i, In i range -> (i < length coordinates)%nat) ->
  exists a,
    Binary64.shoelace_loop cos coordinates (length coordinates) range area
      = Ok a.
Proof.
  intros Hdef Hne; revert area.
  assert (Hn : length coordinates <> 0%nat)
    by (destruct coordinates; [contradiction | discriminate]).
  assert (Hnth : forall i, (i < length coordinates)%nat ->
            Binary64.cos_defined cos (nth i coordinates (0, 0))).
  { intros i Hi; rewrite Forall_forall in Hdef; apply Hdef, nth_In, Hi. }
  induction range as [|i range IH]; intros area Hrange.
  - eexists; reflexivity.
  - cbn [Binary64.shoelace_loop].
    destruct (b64_deg_to_meters_defined _
                (Hnth i (Hrange i (or_introl eq_refl)))) as [[lat1 lon1] ->].
    destruct (b64_deg_to_meters_defined _
                (Hnth _ (Nat.mod_upper_bound (i + 1) _ Hn)))
      as [[lat2 lon2] ->].
    cbn [rbind].
    apply IH; intros k Hk; apply Hrange; right; exact Hk.
Qed.



Lemma b64_calculate_area_defined (coordinates : list Binary64.coord) :
  Forall (Binary64.cos_defined cos) coordinates ->
  exists a, Binary64._calculate_area cos coordinates = Ok a.
Proof.
  intros Hdef; unfold Binary64._calculate_area.
  destruct (length coordinates <? 3)%nat eqn:E; [eexists; reflexivity|].
  apply Nat.ltb_ge in E.
  destruct (b64_shoelace_loop_defined coordinates
              (seq 0 (length coordinates)) 0 Hdef) as [s ->].
  - destruct coordinates; [simpl in E; lia | discriminate].
  - intros i Hi; apply in_seq in Hi; lia.
  - cbn [rbind]; eexists; reflexivity.
Qed.

(** The change composer on floats. *)

Variable G : Binary64.generator.

Lemma b64_analyze_change_run (h c : Binary64.image)
    (coordinates : list Binary64.coord) (g : Binary64.rng G)
    (area f : float) :
  Binary64._calculate_area cos coordinates = Ok area ->
  Binary64._get_location_risk_factor coordinates = Ok f ->
  exists r g',
    Binary64.analyze_change cos G h c coordinates g = Ok (r, g') /\
    Binary64.ChangeResult.confidence_score r = Binary64.probability area f /\
    Binary64.ChangeResult.deforestation_detected r =
      (0.5 <? Binary64.probability area f) /\
    Binary64.ChangeResult.area_analyzed r = area.
Proof.
  intros Ha Hf; unfold Binary64.analyze_change.
  rewrite Ha, Hf; cbn [rbind].
  fold (Binary64.probability area f).
  destruct (0.5 <? Binary64.probability area f);
    unfold Binary64.uniform;
    repeat match goal with
           | |- context [Binary64.random G ?x] =>
               destruct (Binary64.random G x)
           end;
    do 2 eexists; repeat split.
Qed.


End Binary64Area.

(** The ring whose longitude overflows. *)

Lemma b64_deg_to_meters_equator (cos : float -> float) (lon : float) :
  cos 0 = 1 ->
  Binary64.deg_to_meters cos 0 lon = Ok (0, lon * 111320 * 1).
Proof.
  intros H; unfold Binary64.deg_to_meters, Binary64.math_cos.
  change (Binary64.radians 0) with 0.
  rewrite H; reflexivity.
Qed.

Lemma b64_area_overflow_ring (cos : float -> float) :
  cos 0 = 1 ->
  Binary64._calculate_area cos Binary64.overflow_ring = Ok nan.
Proof.
  intros H; unfold Binary64._calculate_area, Binary64.overflow_ring.
  cbn [length Nat.ltb Nat.leb seq Binary64.shoelace_loop nth Nat.modulo
       Nat.add Nat.divmod fst snd Nat.sub Binary64.idx0 Binary64.idx1].
  rewrite !(b64_deg_to_meters_equator cos _ H).
  reflexivity.
Qed.

Lemma b64_analyze_change_overflow_ring (cos : float -> float)
    (G : Binary64.generator) (h c : Binary64.image) (g : Binary64.rng G) :
  cos 0 = 1 ->
  exists r g',
    Binary64.analyze_change cos G h c Binary64.overflow_ring g = Ok (r, g') /\
    Binary64.ChangeResult.confidence_score r = nan /\
    Binary64.ChangeResult.deforestation_detected r = false /\
    Binary64.ChangeResult.area_analyzed r = nan.
Proof.
  intros H.
  destruct (b64_analyze_change_run cos G h c Binary64.overflow_ring g
              nan 0.4 (b64_area_overflow_ring cos H) eq_refl)
    as (r & g' & Hrun & Hconf & Hdet & Harea).
  exists r, g'; split; [exact Hrun|].
  split; [rewrite Hconf; reflexivity|].
  split; [rewrite Hdet; reflexivity | exact Harea].
Qed.



Lemma b64_triangle_cos_defined :
  Forall (Binary64.cos_defined Binary64.cos_taylor) Binary64.triangle.
Proof.
  unfold Binary64.triangle; repeat constructor; eexists; reflexivity.
Qed.



(** C5, as stated, fails on the program's floats: on the ring
    [[1e308, 0], [0, 0], [1, 0]] the confidence score is NaN, outside
    [0.1, 0.9]. *)
Lemma C5_confidence_outside_interval :
  (3 <= length Binary64.overflow_ring)%nat /\
  forall (cos : float -> float) (G : Binary64.generator)
         (h c : Binary64.image) (g : Binary64.rng G),
    cos 0 = 1 ->
    exists r g',
      Binary64.analyze_change cos G h c Binary64.overflow_ring g
        = Ok (r, g') /\
      (0.1 <=? Binary64.ChangeResult.confidence_score r) = false /\
      (Binary64.ChangeResult.confidence_score r <=? 0.9) = false.
Proof.
  split; [simpl; lia|].
  intros cos G h c g H.
  destruct (b64_analyze_change_overflow_ring cos G h c g H)
    as (r & g' & Hrun & Hconf & _).
  exists r, g'; split; [exact Hrun|]; rewrite Hconf; split; reflexivity.
Qed.

(** C5, amended.  For every coordinate list with at least 3 vertices whose
    latitudes [math.cos] accepts, [analyzeChange] returns, and its
    [confidence_score] is [min(max(0.3 * (min(area / 100, 1.0) +
    risk_factor) / 2, 0.1), 0.9)] computed in binary64: it lies in
    [0.1, 0.9] unless it is NaN (the area overflowed). *)
Theorem C5_confidence_score_clamped_or_nan (cos : float -> float)
    (G : Binary64.generator) (historical_image current_image : Binary64.image)
    (coordinates : list Binary64.coord) (g : Binary64.rng G) :
  (3 <= length coordinates)%nat ->
  Forall (Binary64.cos_defined cos) coordinates ->
  exists (r : Binary64.ChangeResult.t) (g' : Binary64.rng G)
         (area risk_factor : float),
    Binary64.analyze_change cos G historical_image current_image
      coordinates g = Ok (r, g') /\
    Binary64._calculate_area cos coordinates = Ok area /\
    Binary64._get_location_risk_factor coordinates = Ok risk_factor /\
    Binary64.ChangeResult.confidence_score r =
      Binary64.py_min
        (Binary64.py_max
           (0.3 * (Binary64.py_min (area / 100) 1 + risk_factor) / 2) 0.1)
        0.9 /\
    (is_nan (Binary64.ChangeResult.confidence_score r) = true \/
     ((0.1 <=? Binary64.ChangeResult.confidence_score r) = true /\
      (Binary64.ChangeResult.confidence_score r <=? 0.9) = true)).
Proof.
  intros Hlen Hdef.
  destruct (b64_calculate_area_defined cos coordinates Hdef) as [area Ha].
  assert (Hne : coordinates <> [])
    by (destruct coordinates; [simpl in Hlen; lia | discriminate]).
  pose proof (b64_risk_factor_nonempty coordinates Hne) as Hf.
  destruct (b64_analyze_change_run cos G historical_image current_image
              coordinates g area _ Ha Hf)
    as (r & g' & Hrun & Hconf & _).
  exists r, g', area; eexists.
  split; [exact Hrun|]; split; [exact Ha|]; split; [exact Hf|].
  split; [exact Hconf|].
  rewrite Hconf; apply b64_probability_clamped.
Qed.

Lemma C5_confidence_score_clamped_or_nan_witness :
  exists (r : Binary64.ChangeResult.t) (g' : nat) (area risk_factor : float),
    Binary64.analyze_change Binary64.cos_taylor
      (Binary64.constant_generator 0.5) (Binary64.demo_image "2019-01-01")
      (Binary64.demo_image "2023-01-01") Binary64.triangle 0%nat
      = Ok (r, g') /\
    Binary64._calculate_area Binary64.cos_taylor Binary64.triangle
      = Ok area /\
    Binary64._get_location_risk_factor Binary64.triangle = Ok risk_factor /\
    Binary64.ChangeResult.confidence_score r =
      Binary64.py_min
        (Binary64.py_max
           (0.3 * (Binary64.py_min (area / 100) 1 + risk_factor) / 2) 0.1)
        0.9 /\
    (is_nan (Binary64.ChangeResult.confidence_score r) = true \/
     ((0.1 <=? Binary64.ChangeResult.confidence_score r) = true /\
      (Binary64.ChangeResult.confidence_score r <=? 0.9) = true)).
Proof.
  apply (C5_confidence_score_clamped_or_nan Binary64.cos_taylor
           (Binary64.constant_generator 0.5)).
  - simpl; lia.
  - exact b64_triangle_cos_defined.
Defined.

(** C7, as stated, fails on the program's floats: the vertices
    [[20, 12.9], [20, 11.3], [20, 5.8]] sum to 30.000000000000004 in that
    order and to 30 in the reverse order, so the mean latitude is above 10
    for the list (factor 0.4) and exactly 10 for its reversal
    (factor 0.7). *)
Lemma C7_permutation_changes_factor :
  Permutation Binary64.meridian_plot (rev Binary64.meridian_plot) /\
  Binary64.py_sum (map Binary64.idx1 Binary64.meridian_plot)
    = 30.000000000000004 /\
  Binary64.py_sum (map Binary64.idx1 (rev Binary64.meridian_plot)) = 30 /\
  Binary64._get_location_risk_factor Binary64.meridian_plot = Ok 0.4 /\
  Binary64._get_location_risk_factor (rev Binary64.meridian_plot) = Ok 0.7.
Proof.
  split; [apply Permutation_rev|].
  repeat split; reflexivity.
Qed.

(** C7, amended.  [classifyRiskFactor] depends only on the mean centroid it
    computes: two (non-empty) vertex lists with the same computed mean
    latitude and mean longitude get the same factor (a permutation of a
    list can change the computed mean); every factor returned is one of
    0.8, 0.7, 0.6, 0.2, 0.4 and lies in [0.2, 0.8]; a polygon whose
    computed centroid is (lat = 0, lon = 20) gets 0.7. *)
Theorem C7_risk_factor_centroid_only :
  (forall l1 l2 : list Binary64.coord,
     l1 <> [] -> l2 <> [] ->
     Binary64.centroid_lat l1 = Binary64.centroid_lat l2 ->
     Binary64.centroid_lon l1 = Binary64.centroid_lon l2 ->
     Binary64._get_location_risk_factor l1 =
       Binary64._get_location_risk_factor l2) /\
  (forall (l : list Binary64.coord) (f : float),
     Binary64._get_location_risk_factor l = Ok f ->
     In f Binary64.risk_levels /\ (0.2 <=? f) = true /\ (f <=? 0.8) = true) /\
  (forall l : list Binary64.coord,
     l <> [] ->
     (Binary64.centroid_lat l =? 0) = true ->
     (Binary64.centroid_lon l =? 20) = true ->
     Binary64._get_location_risk_factor l = Ok 0.7).
Proof.
  split; [|split].
  - intros l1 l2 H1 H2 Hlat Hlon.
    rewrite !b64_risk_factor_nonempty by assumption.
    rewrite Hlat, Hlon; reflexivity.
  - intros l f H.
    apply b64_risk_factor_ok_inv in H; destruct H as [_ ->].
    apply b64_classify_levels.
  - intros l H Hlat Hlon.
    rewrite b64_risk_factor_nonempty by assumption.
    rewrite (b64_classify_central_africa _ _ Hlat Hlon); reflexivity.
Qed.

Lemma C7_risk_factor_centroid_only_witness :
  Binary64._get_location_risk_factor Binary64.polygon_congo =
    Binary64._get_location_risk_factor Binary64.segment_congo /\
  (In 0.7 Binary64.risk_levels /\ (0.2 <=? 0.7) = true /\
   (0.7 <=? 0.8) = true) /\
  Binary64._get_location_risk_factor Binary64.polygon_congo = Ok 0.7.
Proof.
  destruct C7_risk_factor_centroid_only as (Hc & Hr & Hk).
  assert (Hv : Binary64._get_location_risk_factor Binary64.polygon_congo
               = Ok 0.7)
    by (apply Hk; [discriminate | reflexivity | reflexivity]).
  split; [|split].
  - apply Hc; try discriminate; reflexivity.
  - apply (Hr Binary64.polygon_congo); exact Hv.
  - exact Hv.
Defined.


End Binary64Facts.

(** ** The floor of the area over the reals *)



(** ** The risk classifier *)

Lemma py_sum_from (l : list R) (a : R) : fold_left Rplus l a = a + py_sum l.
Proof.
  unfold py_sum; revert a.
  induction l as [|x l IH]; intros a; simpl.
  - lra.
  - rewrite (IH (a + x)), (IH (0 + x)); lra.
Qed.

Lemma py_sum_cons (x : R) (l : list R) : py_sum (x :: l) = x + py_sum l.
Proof. unfold py_sum at 1; simpl; rewrite py_sum_from; lra. Qed.

Lemma INR_length_zero {A : Type} (l : list A) :
  INR (length l) = 0 <-> l = [].
Proof.
  split.
  - destruct l as [|x l]; [reflexivity|].
    intros H; exfalso.
    assert (0 < INR (length (x :: l))) by (apply lt_0_INR; simpl; lia).
    lra.
  - intros ->; reflexivity.
Qed.

Lemma py_div_nonzero (a b : R) : b <> 0 -> py_div a b = Ok (a / b).
Proof. intros H; unfold py_div; destruct (Req_dec_T b 0); easy. Qed.

Lemma py_div_zero (a : R) : py_div a 0 = Raise ZeroDivisionError.
Proof. unfold py_div; destruct (Req_dec_T 0 0); easy. Qed.

Lemma risk_factor_empty : _get_location_risk_factor [] = Raise ZeroDivisionError.
Proof.
  unfold _get_location_risk_factor; simpl; rewrite py_div_zero; reflexivity.
Qed.

Lemma risk_factor_nonempty (coordinates : list coord) :
  coordinates <> [] ->
  _get_location_risk_factor coordinates =
    Ok (classify (centroid_lat coordinates) (centroid_lon coordinates)).
Proof.
  intros H.
  assert (Hn : INR (length coordinates) <> 0)
    by (intros E; apply INR_length_zero in E; contradiction).
  unfold _get_location_risk_factor, centroid_lat, centroid_lon.
  rewrite !py_div_nonzero by assumption; simpl.
  unfold classify.
  repeat match goal with |- context [if ?b then _ else _] =>
    destruct b end; reflexivity.
Qed.

Lemma classify_levels (a b : R) : In (classify a b) risk_levels.
Proof.
  unfold classify, risk_levels.
  repeat match goal with |- context [if ?b then _ else _] =>
    destruct b end; simpl; auto 6.
Qed.

Lemma risk_levels_range (f : R) : In f risk_levels -> 0.2 <= f <= 0.8.
Proof.
  unfold risk_levels; simpl.
  intros [<-|[<-|[<-|[<-|[<-|[]]]]]]; lra.
Qed.

Lemma risk_factor_ok_inv (coordinates : list coord) (f : R) :
  _get_location_risk_factor coordinates = Ok f ->
  coordinates <> [] /\
  f = classify (centroid_lat coordinates) (centroid_lon coordinates).
Proof.
  intros H.
  destruct coordinates as [|c l].
  - rewrite risk_factor_empty in H; discriminate.
  - rewrite risk_factor_nonempty in H by discriminate.
    injection H as <-; split; [discriminate | reflexivity].
Qed.

(** C6.  The claim that [classifyRiskFactor] has no error condition fails
    on the code: on the empty vertex list [_get_location_risk_factor]
    divides by [len(coordinates) = 0] and raises [ZeroDivisionError]; on
    every other vertex list it returns a factor. *)
Theorem C6_risk_factor_raises_on_empty :
  _get_location_risk_factor [] = Raise ZeroDivisionError /\
  (forall coordinates : list coord,
     (exists f, _get_location_risk_factor coordinates = Ok f) <->
     coordinates <> []).
Proof.
  split; [exact risk_factor_empty|].
  intros coordinates; split.
  - intros [f H]; apply risk_factor_ok_inv in H; tauto.
  - intros H; eexists; apply risk_factor_nonempty; assumption.
Qed.

Lemma centroid_congo :
  centroid_lat polygon_congo = 0 /\ centroid_lon polygon_congo = 20.
Proof.
  unfold centroid_lat, centroid_lon, polygon_congo, py_sum, idx0, idx1.
  simpl; split; lra.
Qed.

(** ** The change composer *)


Lemma percentage_of_zero (area_hectares : R) :
  percentage_of 0 area_hectares = Ok 0.
Proof.
  unfold percentage_of.
  destruct (Rltb 0 area_hectares) eqn:E; [|reflexivity].
  apply Rltb_true in E.
  rewrite py_div_nonzero by lra; simpl.
  f_equal; unfold Rdiv; ring.
Qed.


Lemma probability_low (a f : R) : f <= 0.8 -> probability a f <= 0.27.
Proof.
  intros Hf; unfold probability.
  eapply Rle_trans; [apply py_min_upper_l|].
  apply py_max_upper; [|lra].
  pose proof (py_min_upper_r (a / 100) 1); lra.
Qed.

Section ComposerFacts.

Variable G : generator.

(** What [analyze_change] computes once the location factor is known:
    the detection branch is never taken. *)
Lemma analyze_change_run (h c : image) (coordinates : list coord)
    (f : R) (g : rng G) :
  _get_location_risk_factor coordinates = Ok f ->
  exists r,
    analyze_change G h c coordinates g = Ok (r, snd (random G g)) /\
    ChangeResult.deforestation_detected r = false /\
    ChangeResult.confidence_score r =
      probability (_calculate_area coordinates) f /\
    ChangeResult.area_analyzed r = _calculate_area coordinates /\
    ChangeResult.forest_loss_area r = 0 /\
    ChangeResult.change_percentage r = 0.
Proof.
  intros Hf.
  assert (Hlow : probability (_calculate_area coordinates) f <= 0.27).
  { apply probability_low.
    apply risk_factor_ok_inv in Hf; destruct Hf as [_ ->].
    apply (risk_levels_range _ (classify_levels _ _)). }
  assert (Hd : Rltb 0.5 (probability (_calculate_area coordinates) f) = false)
    by (apply Rltb_false; lra).
  unfold analyze_change, bind, lift; rewrite Hf.
  fold (probability (_calculate_area coordinates) f); rewrite Hd.
  unfold uniform; destruct (random G g) as [u g']; simpl.
  rewrite percentage_of_zero; simpl.
  eexists; repeat split.
Qed.

Lemma analyze_change_empty (h c : image) (g : rng G) :
  analyze_change G h c [] g = Raise ZeroDivisionError.
Proof.
  unfold analyze_change, bind, lift; rewrite risk_factor_empty; reflexivity.
Qed.

Lemma analyze_change_ok_inv (h c : image) (coordinates : list coord)
    (g g' : rng G) (r : ChangeResult.t) :
  analyze_change G h c coordinates g = Ok (r, g') ->
  exists f, _get_location_risk_factor coordinates = Ok f.
Proof.
  destruct coordinates as [|x l].
  - rewrite analyze_change_empty; discriminate.
  - intros _; eexists; apply risk_factor_nonempty; discriminate.
Qed.

End ComposerFacts.








(** ** The area of the specification's square *)

Lemma cos_small_lower (a : R) :
  - PI / 2 <= a -> a <= PI / 2 -> 1 - a * a / 2 <= cos a.
Proof.
  intros H1 H2.
  destruct (cos_bound a 0 H1 H2) as [H _].
  unfold cos_approx, cos_term in H; simpl in H.
  lra.
Qed.

Lemma shoelace_square :
  shoelace_sum square_plot = 1113.2 * 1113.2 * (1 + cos (radians 0.01)).
Proof.
  unfold shoelace_sum, square_plot.
  cbn [length seq fold_left].
  unfold shoelace_step.
  cbn [Nat.add Nat.modulo Nat.divmod fst snd nth idx0 idx1 deg_to_meters
       Nat.sub].
  unfold radians; replace (0 * (PI / 180)) with 0 by lra; rewrite cos_0.
  lra.
Qed.

Lemma cos_hundredth_degree :
  1 - 0.000000025 <= cos (radians 0.01) <= 1.
Proof.
  pose proof PI_RGT_0 as Hpos; pose proof PI_4 as H4.
  split; [|apply COS_bound].
  eapply Rle_trans; [|apply cos_small_lower; unfold radians; lra].
  unfold radians; nra.
Qed.

Lemma area_square :
  _calculate_area square_plot =
    py_max (1113.2 * 1113.2 * (1 + cos (radians 0.01)) / 2 / 10000) 1.
Proof.
  unfold _calculate_area; cbn [length Nat.ltb Nat.leb square_plot].
  rewrite shoelace_square.
  rewrite Rabs_pos_eq; [reflexivity|].
  pose proof cos_hundredth_degree; nra.
Qed.

Lemma area_square_bounds :
  123.92 < _calculate_area square_plot < 123.93.
Proof.
  rewrite area_square, py_max_Rmax.
  pose proof cos_hundredth_degree as [Hlo Hhi].
  rewrite Rmax_left by nra.
  split; nra.
Qed.

(** C4, as stated, fails: the square is about 1.11 km on a side, and its
    computed area exceeds the 1 to 1.5 hectare range. *)
Lemma C4_square_area_above_range : 1.5 < _calculate_area square_plot.
Proof. pose proof area_square_bounds; lra. Qed.

(** C4, amended.  For the square polygon with (lon, lat) vertices (0,0),
    (0,0.01), (0.01,0.01), (0.01,0), [computeAreaHectares] returns a value
    between 123.92 and 123.93 hectares (and so at least 1.0). *)
Theorem C4_square_area :
  123.92 < _calculate_area square_plot < 123.93 /\
  1 <= _calculate_area square_plot.
Proof.
  pose proof area_square_bounds; split; [assumption | lra].
Qed.

(** ** The full report *)

Lemma confidence_divisor (x y z : R) :
  py_div (py_sum [x; y; z]) (INR (length [x; y; z])) =
    Ok (py_sum [x; y; z] / 3).
Proof.
  rewrite py_div_nonzero.
  - do 2 f_equal; simpl; lra.
  - simpl; lra.
Qed.

Lemma percentage_of_total (loss area : R) :
  exists p, percentage_of loss area = Ok p.
Proof.
  unfold percentage_of.
  destruct (Rltb 0 area) eqn:E; [|eexists; reflexivity].
  apply Rltb_true in E.
  rewrite py_div_nonzero by lra; eexists; reflexivity.
Qed.

Section ReportFacts.

Variable G : generator.

Lemma uniform_run (a b : R) (g : rng G) :
  uniform a b g =
    Ok (a + (b - a) * fst (random G g), snd (random G g)).
Proof. unfold uniform; destruct (random G g); reflexivity. Qed.

(** A draw of [uniform(a, b)] lies between [a] and [b]. *)
Lemma uniform_range (a b x : R) (g g' : rng G) :
  generator_ok G -> a <= b ->
  uniform a b g = Ok (x, g') -> a <= x <= b.
Proof.
  intros [Hu _] Hab; rewrite uniform_run; intros H; injection H as <- _.
  specialize (Hu g); nra.
Qed.

Ltac run_draws H :=
  unfold uniform, ret in H;
  repeat match type of H with
         | context [random G ?x] => destruct (random G x)
         end;
  cbn [negb] in H;
  repeat match type of H with
         | context [random G ?x] => destruct (random G x)
         end.

(** What a returned report records. *)
Lemma full_analysis_inv (coordinates : list coord) (g g' : rng G)
    (r : FullReport.t) :
  full_analysis G coordinates g = Ok (r, g') ->
  exists f,
    _get_location_risk_factor coordinates = Ok f /\
    FullReport.area_analyzed r = _calculate_area coordinates /\
    (FullReport.forest_loss_detected r = true -> Rltb 0.5 f = true) /\
    (FullReport.forest_loss_detected r = false ->
       FullReport.forest_loss_area r = 0 /\
       FullReport.change_percentage r = 0) /\
    FullReport.recommendations r =
      ((if FullReport.forest_loss_detected r then recommendations_detected
        else recommendations_clear) ++
       (if Rltb 100 (_calculate_area coordinates)
        then [recommendation_high_frequency] else []))%list.
Proof.
  unfold full_analysis, bind, lift.
  destruct (_get_location_risk_factor coordinates) as [f|e];
    [|discriminate].
  intros H; exists f; split; [reflexivity|].
  rewrite confidence_divisor in H.
  destruct (Rltb 0.5 f) eqn:Hrisk.
  - unfold choice in H.
    destruct (randbelow G (length [true; false]) g) as [i g1].
    destruct (nth_error [true; false] i) as [b|]; [|discriminate].
    destruct b.
    + unfold uniform at 1 in H; destruct (random G g1) as [u g2].
      unfold ret at 1 in H.
      destruct (percentage_of
                  (_calculate_area coordinates * (0 + (0.3 - 0) * u))
                  (_calculate_area coordinates)) as [p|]; [|discriminate].
      run_draws H.
      injection H as <- _; cbn.
      repeat split; try discriminate.
      destruct (Rltb 100 _); reflexivity.
    + unfold ret at 1 in H; rewrite percentage_of_zero in H.
      run_draws H.
      injection H as <- _; cbn.
      repeat split; try discriminate.
      destruct (Rltb 100 _); reflexivity.
  - unfold ret in H; cbv beta iota in H.
    rewrite percentage_of_zero in H.
    run_draws H.
    injection H as <- _; cbn.
    repeat split; try discriminate.
    destruct (Rltb 100 _); reflexivity.
Qed.

Ltac finish_draws :=
  repeat (rewrite uniform_run; cbv beta iota);
  cbn [negb];
  repeat (rewrite uniform_run; cbv beta iota);
  unfold ret; eexists; eexists; reflexivity.

(** Below the risk threshold nothing is drawn for the verdict, and a
    report is always returned. *)
Lemma full_analysis_low_risk_returns (coordinates : list coord) (f : R)
    (g : rng G) :
  _get_location_risk_factor coordinates = Ok f -> f <= 0.5 ->
  exists r g', full_analysis G coordinates g = Ok (r, g').
Proof.
  intros Hf Hlow.
  unfold full_analysis, bind, lift; rewrite Hf.
  rewrite confidence_divisor.
  assert (E : Rltb 0.5 f = false) by (apply Rltb_false; lra).
  rewrite E; unfold ret; cbv beta iota.
  rewrite percentage_of_zero.
  finish_draws.
Qed.

(** With a generator that keeps [_randbelow] below its bound, a report
    is returned for every non-empty coordinate list. *)
Lemma full_analysis_returns (coordinates : list coord) (g : rng G) :
  generator_ok G -> coordinates <> [] ->
  exists r g', full_analysis G coordinates g = Ok (r, g').
Proof.
  intros [_ Hbelow] Hne.
  destruct (Rltb 0.5 (classify (centroid_lat coordinates)
                               (centroid_lon coordinates))) eqn:E.
  2:{ apply Rltb_false in E.
      eapply full_analysis_low_risk_returns;
        [apply risk_factor_nonempty; assumption | exact E]. }
  unfold full_analysis, bind, lift.
  rewrite risk_factor_nonempty by assumption.
  rewrite confidence_divisor, E.
  unfold choice.
  specialize (Hbelow (length [true; false]) g ltac:(simpl; lia)).
  destruct (randbelow G (length [true; false]) g) as [i g1].
  cbn [fst length] in Hbelow.
  destruct i as [|[|i]]; [| |lia]; cbn [nth_error].
  - rewrite uniform_run; cbv beta iota; unfold ret at 1.
    destruct (percentage_of_total
                (_calculate_area coordinates *
                 (0 + (0.3 - 0) * fst (random G g1)))
                (_calculate_area coordinates)) as [p ->].
    finish_draws.
  - unfold ret at 1; rewrite percentage_of_zero.
    finish_draws.
Qed.

End ReportFacts.

(** C8.  In [fullAnalysis], [forest_loss_detected] can only be true when
    the polygon's location risk factor exceeds 0.5: for every polygon whose
    risk factor is at most 0.5 and every random draw a report is returned
    with [forest_loss_detected = false], [forest_loss_area = 0] and
    [change_percentage = 0]. *)
Theorem C8_loss_only_above_risk_threshold (G : generator)
    (coordinates : list coord) (risk : R) (g : rng G) :
  _get_location_risk_factor coordinates = Ok risk ->
  (risk <= 0.5 ->
   exists (r : FullReport.t) (g' : rng G),
     full_analysis G coordinates g = Ok (r, g') /\
     FullReport.forest_loss_detected r = false /\
     FullReport.forest_loss_area r = 0 /\
     FullReport.change_percentage r = 0) /\
  (forall (r : FullReport.t) (g' : rng G),
     full_analysis G coordinates g = Ok (r, g') ->
     FullReport.forest_loss_detected r = true -> 0.5 < risk).
Proof.
  intros Hrisk; split.
  - intros Hlow.
    destruct (full_analysis_low_risk_returns G coordinates risk g Hrisk Hlow)
      as (r & g' & Hrun).
    destruct (full_analysis_inv G _ _ _ _ Hrun)
      as (f & Hf & _ & Hdet & Hzero & _).
    assert (f = risk) by congruence; subst f.
    assert (Hfalse : FullReport.forest_loss_detected r = false).
    { destruct (FullReport.forest_loss_detected r); [|reflexivity].
      specialize (Hdet eq_refl); apply Rltb_true in Hdet; lra. }
    exists r, g'; split; [exact Hrun|]; split; [exact Hfalse|].
    apply Hzero; exact Hfalse.
  - intros r g' Hrun Htrue.
    destruct (full_analysis_inv G _ _ _ _ Hrun) as (f & Hf & _ & Hdet & _).
    assert (f = risk) by congruence; subst f.
    apply Rltb_true, Hdet, Htrue.
Qed.

Ltac decide_Rleb :=
  repeat match goal with
         | |- context [Rleb ?a ?b] =>
             first [ rewrite (proj2 (Rleb_true a b)) by lra
                   | rewrite (proj2 (Rleb_false a b)) by lra ]
         end;
  cbn [andb].

Lemma risk_factor_triangle : _get_location_risk_factor triangle = Ok 0.4.
Proof.
  rewrite risk_factor_nonempty by discriminate.
  assert (Hlat : centroid_lat triangle = 1 / 3)
    by (unfold centroid_lat, triangle, py_sum, idx1; simpl; lra).
  assert (Hlon : centroid_lon triangle = 2 / 3)
    by (unfold centroid_lon, triangle, py_sum, idx0; simpl; lra).
  rewrite Hlat, Hlon; unfold classify; decide_Rleb; reflexivity.
Qed.

Lemma C8_loss_only_above_risk_threshold_witness :
  exists (r : FullReport.t) (g' : rng zero_tape),
    full_analysis zero_tape triangle 0%nat = Ok (r, g') /\
    FullReport.forest_loss_detected r = false /\
    FullReport.forest_loss_area r = 0 /\
    FullReport.change_percentage r = 0.
Proof.
  destruct (C8_loss_only_above_risk_threshold zero_tape triangle 0.4 0%nat
              risk_factor_triangle) as [Hlow _].
  apply Hlow; lra.
Defined.

Lemma high_frequency_fresh :
  ~ In recommendation_high_frequency recommendations_detected /\
  ~ In recommendation_high_frequency recommendations_clear.
Proof.
  unfold recommendations_detected, recommendations_clear,
    recommendation_high_frequency; simpl.
  split; intros H;
    repeat match goal with
           | H : _ \/ _ |- _ => destruct H as [H|H]
           end; try discriminate H; exact H.
Qed.

(** C9.  For every coordinate list and every random draw, the
    recommendations list returned by [fullAnalysis] has at least 3 entries
    (the 4 fixed strings of the loss-detected branch or the 3 of the clear
    branch, then possibly one more), and it contains the high-frequency
    satellite monitoring recommendation if and only if the analyzed area
    exceeds 100 hectares. *)
Theorem C9_recommendations (G : generator) (coordinates : list coord)
    (g g' : rng G) (r : FullReport.t) :
  full_analysis G coordinates g = Ok (r, g') ->
  (3 <= length (FullReport.recommendations r))%nat /\
  firstn (if FullReport.forest_loss_detected r then 4 else 3)%nat
         (FullReport.recommendations r) =
    (if FullReport.forest_loss_detected r then recommendations_detected
     else recommendations_clear) /\
  (In recommendation_high_frequency (FullReport.recommendations r) <->
   100 < FullReport.area_analyzed r).
Proof.
  intros Hrun.
  destruct (full_analysis_inv G _ _ _ _ Hrun)
    as (f & _ & Harea & _ & _ & Hrec).
  destruct high_frequency_fresh as [Hd Hc].
  rewrite Hrec, Harea.
  split; [|split].
  - rewrite length_app.
    destruct (FullReport.forest_loss_detected r); simpl; lia.
  - destruct (FullReport.forest_loss_detected r);
      destruct (Rltb 100 (_calculate_area coordinates)); reflexivity.
  - rewrite in_app_iff.
    destruct (Rltb 100 (_calculate_area coordinates)) eqn:E.
    + apply Rltb_true in E; split; [intros _; exact E|].
      intros _; right; left; reflexivity.
    + apply Rltb_false in E; split.
      * intros [H|[]].
        destruct (FullReport.forest_loss_detected r); contradiction.
      * intros H; lra.
Qed.

Lemma zero_tape_ok : generator_ok zero_tape.
Proof.
  split.
  - intros g; simpl; lra.
  - intros n g Hn; simpl; apply Nat.mod_upper_bound; lia.
Qed.

Lemma C9_recommendations_witness :
  exists (r : FullReport.t) (g' : rng zero_tape),
    full_analysis zero_tape square_plot 0%nat = Ok (r, g') /\
    (3 <= length (FullReport.recommendations r))%nat /\
    firstn (if FullReport.forest_loss_detected r then 4 else 3)%nat
           (FullReport.recommendations r) =
      (if FullReport.forest_loss_detected r then recommendations_detected
       else recommendations_clear) /\
    (In recommendation_high_frequency (FullReport.recommendations r) <->
     100 < FullReport.area_analyzed r).
Proof.
  destruct (full_analysis_returns zero_tape square_plot 0%nat zero_tape_ok)
    as (r & g' & Hrun); [discriminate|].
  exists r, g'; split; [exact Hrun|].
  exact (C9_recommendations zero_tape _ _ _ _ Hrun).
Defined.

(** ** The time-span utility *)

Lemma time_span_parsed (start_date end_date : string) (s e : datetime) :
  strptime start_date = Some s -> strptime end_date = Some e ->
  _calculate_time_span start_date end_date = (toordinal e - toordinal s)%Z.
Proof.
  intros Hs He; unfold _calculate_time_span; rewrite Hs, He; reflexivity.
Qed.

Lemma time_span_fallback (start_date end_date : string) :
  strptime start_date = None \/ strptime end_date = None ->
  _calculate_time_span start_date end_date = 365%Z.
Proof.
  unfold _calculate_time_span; intros [H|H]; rewrite H;
    [|destruct (strptime start_date)]; reflexivity.
Qed.

Local Open Scope Z_scope.

Lemma days_before_year_succ (y : Z) :
  1 <= y ->
  _days_before_year (y + 1) =
    _days_before_year y + (if _is_leap y then 366 else 365).
Proof.
  intros Hy; unfold _days_before_year, _is_leap.
  replace (y + 1 - 1) with y by lia.
  destruct (y mod 4 =? 0) eqn:E4; destruct (y mod 100 =? 0) eqn:E100;
    destruct (y mod 400 =? 0) eqn:E400; cbn [andb orb negb];
    rewrite ?Z.eqb_eq, ?Z.eqb_neq in *;
    Z.div_mod_to_equations; lia.
Qed.

Ltac calendar_eval :=
  repeat match goal with
         | |- context [nth (Z.to_nat ?k) ?l ?d] =>
             let v := eval vm_compute in (nth (Z.to_nat k) l d) in
             change (nth (Z.to_nat k) l d) with v
         | |- context [if ?b then _ else _] =>
             let v := eval vm_compute in b in
             change b with v; cbv iota
         end.

Lemma toordinal_next_day (d : datetime) :
  valid_date d -> toordinal (next_day d) = toordinal d + 1.
Proof.
  destruct d as [y m dd]; unfold valid_date, next_day, toordinal, _ymd2ord;
    cbn [dt_year dt_month dt_day].
  intros (Hy & Hm & Hd).
  destruct (dd <? _days_in_month y m) eqn:E; cbn [dt_year dt_month dt_day];
    [ring|].
  apply Z.ltb_ge in E.
  assert (Hdd : dd = _days_in_month y m) by lia; clear E Hd.
  destruct (m <? 12) eqn:E12; cbn [dt_year dt_month dt_day].
  - apply Z.ltb_lt in E12. subst dd.
    unfold _days_before_month, _days_in_month.
    assert (Hcases : m = 1 \/ m = 2 \/ m = 3 \/ m = 4 \/ m = 5 \/ m = 6 \/
                     m = 7 \/ m = 8 \/ m = 9 \/ m = 10 \/ m = 11) by lia.
    repeat (destruct Hcases as [->|Hcases];
            [destruct (_is_leap y); calendar_eval; lia|]).
    subst m; destruct (_is_leap y); calendar_eval; lia.
  - apply Z.ltb_ge in E12. assert (m = 12) by lia; subst m dd.
    rewrite days_before_year_succ by lia.
    unfold _days_before_month, _days_in_month.
    destruct (_is_leap y); calendar_eval; lia.
Qed.

Lemma digit_char_class (k : Z) (r : string) :
  0 <= k <= 9 -> cls "0" "9" (String (digit_char k) r) = [(k, r)].
Proof.
  intros H.
  assert (Hc : k = 0 \/ k = 1 \/ k = 2 \/ k = 3 \/ k = 4 \/ k = 5 \/
               k = 6 \/ k = 7 \/ k = 8 \/ k = 9) by lia.
  repeat (destruct Hc as [->|Hc]; [reflexivity|]); subst k; reflexivity.
Qed.

Lemma cat_single (p q : rx) (s r r' : string) (a b : Z) :
  p s = [(a, r)] -> q r = [(b, r')] -> cat p q s = [(10 * a + b, r')].
Proof. intros Hp Hq; unfold cat; rewrite Hp; simpl; rewrite Hq; reflexivity. Qed.

Lemma re_Y_digits (y : Z) (r : string) :
  0 <= y <= 9999 ->
  re_Y (String (digit_char (y / 1000)) (String (digit_char (y / 100 mod 10))
       (String (digit_char (y / 10 mod 10)) (String (digit_char (y mod 10)) r))))
    = [(y, r)].
Proof.
  intros Hy; unfold re_Y, re_d09.
  assert (E : y = 10 * (10 * (10 * (y / 1000) + y / 100 mod 10)
                        + y / 10 mod 10) + y mod 10)
    by (Z.div_mod_to_equations; lia).
  rewrite E at 5.
  repeat eapply cat_single; apply digit_char_class;
    Z.div_mod_to_equations; lia.
Qed.

Lemma re_m_digits (m : Z) (r : string) :
  1 <= m <= 12 ->
  exists tl,
    re_m (String (digit_char (m / 10)) (String (digit_char (m mod 10))
         (String "-" r))) = (m, String "-" r) :: tl.
Proof.
  intros H.
  assert (Hc : m = 1 \/ m = 2 \/ m = 3 \/ m = 4 \/ m = 5 \/ m = 6 \/
               m = 7 \/ m = 8 \/ m = 9 \/ m = 10 \/ m = 11 \/ m = 12) by lia.
  repeat (destruct Hc as [->|Hc]; [eexists; reflexivity|]).
  subst m; eexists; reflexivity.
Qed.

Lemma re_d_digits (d : Z) :
  1 <= d <= 31 ->
  exists tl,
    re_d (String (digit_char (d / 10)) (String (digit_char (d mod 10))
         EmptyString)) = (d, EmptyString) :: tl.
Proof.
  intros H.
  assert (Hc : exists n : nat, (n < 31)%nat /\ d = 1 + Z.of_nat n)
    by (exists (Z.to_nat (d - 1)); lia).
  destruct Hc as (n & Hn & ->).
  do 31 (destruct n as [|n]; [eexists; reflexivity|]).
  lia.
Qed.

Lemma days_in_month_le_31 (y m : Z) : _days_in_month y m <= 31.
Proof.
  unfold _days_in_month.
  destruct ((m =? 2) && _is_leap y)%bool; [lia|].
  destruct (Z.to_nat m) as [|n]; [simpl; lia|].
  do 12 (destruct n as [|n]; [simpl; lia|]).
  simpl; destruct n; lia.
Qed.

Lemma strptime_isoformat (d : datetime) :
  valid_date d -> strptime (isoformat d) = Some d.
Proof.
  destruct d as [y m dd]; unfold valid_date, isoformat;
    cbn [dt_year dt_month dt_day].
  intros (Hy & Hm & Hd).
  pose proof (days_in_month_le_31 y m) as H31.
  unfold strptime, format_regex.
  rewrite re_Y_digits by lia.
  destruct (re_m_digits m (String (digit_char (dd / 10))
              (String (digit_char (dd mod 10)) EmptyString)) Hm) as [tlm Em].
  destruct (re_d_digits dd ltac:(lia)) as [tld Ed].
  cbn [flat_map lit]. rewrite Ascii.eqb_refl. cbn [flat_map app].
  rewrite Em. cbn [flat_map lit]. rewrite Ascii.eqb_refl. cbn [flat_map app].
  rewrite Ed. cbn [map app].
  replace ((1 <=? y) && (1 <=? m) && (m <=? 12) && (1 <=? dd) &&
           (dd <=? _days_in_month y m))%bool with true; [reflexivity|].
  symmetry; repeat (apply andb_true_intro; split); apply Z.leb_le; lia.
Qed.

(** From the year 1000 on, [strftime('%Y-%m-%d')] writes the zero-padded
    text; before, the year has fewer than four digits and the text does
    not parse back. *)
Lemma strftime_four_digits (d : datetime) :
  1000 <= dt_year d -> strftime d = isoformat d.
Proof.
  intros H; unfold strftime, year_text, isoformat, two_digits.
  replace (dt_year d <? 10) with false by (symmetry; apply Z.ltb_ge; lia).
  replace (dt_year d <? 100) with false by (symmetry; apply Z.ltb_ge; lia).
  replace (dt_year d <? 1000) with false by (symmetry; apply Z.ltb_ge; lia).
  reflexivity.
Qed.

Lemma strptime_strftime (d : datetime) :
  valid_date d -> 1000 <= dt_year d -> strptime (strftime d) = Some d.
Proof.
  intros Hv Hy; rewrite strftime_four_digits by assumption.
  apply strptime_isoformat; assumption.
Qed.

Lemma re_Y_one_digit (a : Z) (r : string) :
  0 <= a <= 9 -> re_Y (String (digit_char a) (String "-" r)) = [].
Proof.
  intros Ha; unfold re_Y, re_d09, cat; cbv beta.
  rewrite digit_char_class by lia; reflexivity.
Qed.

Lemma re_Y_two_digits (a b : Z) (r : string) :
  0 <= a <= 9 -> 0 <= b <= 9 ->
  re_Y (String (digit_char a) (String (digit_char b) (String "-" r))) = [].
Proof.
  intros Ha Hb; unfold re_Y, re_d09, cat; cbv beta.
  rewrite digit_char_class by lia; cbn [flat_map app map].
  rewrite digit_char_class by lia; reflexivity.
Qed.

Lemma re_Y_three_digits (a b c : Z) (r : string) :
  0 <= a <= 9 -> 0 <= b <= 9 -> 0 <= c <= 9 ->
  re_Y (String (digit_char a) (String (digit_char b)
         (String (digit_char c) (String "-" r)))) = [].
Proof.
  intros Ha Hb Hc; unfold re_Y, re_d09, cat; cbv beta.
  rewrite digit_char_class by lia; cbn [flat_map app map].
  rewrite digit_char_class by lia; cbn [flat_map app map].
  rewrite digit_char_class by lia; reflexivity.
Qed.

Lemma strptime_strftime_early (d : datetime) :
  1 <= dt_year d < 1000 -> strptime (strftime d) = None.
Proof.
  destruct d as [y m dd]; cbn [dt_year]; intros Hy.
  unfold strftime, year_text; cbn [dt_year dt_month dt_day].
  unfold strptime, format_regex.
  destruct (y <? 10) eqn:E1; [apply Z.ltb_lt in E1|apply Z.ltb_ge in E1].
  { cbn [append]; rewrite re_Y_one_digit by lia; reflexivity. }
  destruct (y <? 100) eqn:E2; [apply Z.ltb_lt in E2|apply Z.ltb_ge in E2].
  { cbn [append];
    rewrite re_Y_two_digits by (Z.div_mod_to_equations; lia); reflexivity. }
  replace (y <? 1000) with true by (symmetry; apply Z.ltb_lt; lia).
  cbn [append].
  rewrite re_Y_three_digits by (Z.div_mod_to_equations; lia); reflexivity.
Qed.

Local Close Scope Z_scope.

Lemma time_span_isoformat (s e : datetime) :
  valid_date s -> valid_date e ->
  _calculate_time_span (isoformat s) (isoformat e)
    = (toordinal e - toordinal s)%Z.
Proof.
  intros Hs He; apply time_span_parsed; apply strptime_isoformat; assumption.
Qed.

(** The count is in whole calendar days: a date and the day after it are
    one day apart. *)
Lemma time_span_next_day (d : datetime) :
  valid_date d -> valid_date (next_day d) ->
  _calculate_time_span (isoformat d) (isoformat (next_day d)) = 1%Z.
Proof.
  intros Hd Hn; rewrite time_span_isoformat by assumption.
  rewrite toordinal_next_day by assumption; lia.
Qed.

(** C10.  [computeTimeSpan] parses both arguments as YYYY-MM-DD calendar
    dates and returns the whole-day difference end - start, so that
    [computeTimeSpan("2023-01-01", "2023-01-11") = 10]; when either
    argument fails to parse it returns the fallback 365, as in
    [computeTimeSpan("bad", "2023-01-01") = 365]. *)
Theorem C10_time_span :
  (forall (start_date end_date : string) (s e : datetime),
     strptime start_date = Some s -> strptime end_date = Some e ->
     _calculate_time_span start_date end_date
       = (toordinal e - toordinal s)%Z) /\
  (forall s e : datetime,
     valid_date s -> valid_date e ->
     strptime (isoformat s) = Some s /\ strptime (isoformat e) = Some e /\
     _calculate_time_span (isoformat s) (isoformat e)
       = (toordinal e - toordinal s)%Z) /\
  (forall start_date end_date : string,
     strptime start_date = None \/ strptime end_date = None ->
     _calculate_time_span start_date end_date = 365%Z) /\
  _calculate_time_span "2023-01-01" "2023-01-11" = 10%Z /\
  strptime "bad" = None /\
  _calculate_time_span "bad" "2023-01-01" = 365%Z.
Proof.
  split; [exact time_span_parsed|].
  split.
  { intros s e Hs He.
    split; [apply strptime_isoformat; assumption|].
    split; [apply strptime_isoformat; assumption|].
    apply time_span_isoformat; assumption. }
  split; [exact time_span_fallback|].
  repeat split; vm_compute; reflexivity.
Qed.

Lemma C10_time_span_witness :
  _calculate_time_span "2020-02-29" "2021-03-01" = 366%Z /\
  _calculate_time_span (isoformat new_year_2023) (isoformat new_year_eve_2023)
    = (toordinal new_year_eve_2023 - toordinal new_year_2023)%Z /\
  _calculate_time_span "2021-02-29" "2021-03-01" = 365%Z.
Proof.
  destruct C10_time_span as (Hparsed & Hiso & Hfallback & _).
  split; [|split].
  - rewrite (Hparsed "2020-02-29"%string "2021-03-01"%string
               {| dt_year := 2020; dt_month := 2; dt_day := 29 |}
               {| dt_year := 2021; dt_month := 3; dt_day := 1 |});
      vm_compute; reflexivity.
  - apply Hiso; repeat split; vm_compute; discriminate.
  - apply Hfallback; left; vm_compute; reflexivity.
Defined.

(** * Further properties *)

(** ** The regions of the risk classifier *)

Lemma in_box_test (a b c d lat lon : R) :
  Rleb a lat && Rleb lat b && Rleb c lon && Rleb lon d = true <->
  in_box a b c d lat lon.
Proof.
  unfold in_box; rewrite !andb_true_iff, !Rleb_true; tauto.
Qed.

Lemma classify_cases (lat lon : R) :
  (south_america lat lon /\ classify lat lon = 0.8) \/
  (central_africa lat lon /\ classify lat lon = 0.7) \/
  (southeast_asia lat lon /\ classify lat lon = 0.6) \/
  (europe lat lon /\ classify lat lon = 0.2) \/
  (~ south_america lat lon /\ ~ central_africa lat lon /\
   ~ southeast_asia lat lon /\ ~ europe lat lon /\ classify lat lon = 0.4).
Proof.
  unfold classify, south_america, central_africa, southeast_asia, europe.
  destruct (Rleb (-10) lat && Rleb lat 10 && Rleb (-80) lon && Rleb lon (-40))
    eqn:E1; [left; split; [apply in_box_test, E1 | reflexivity]|].
  destruct (Rleb (-10) lat && Rleb lat 10 && Rleb 10 lon && Rleb lon 35)
    eqn:E2; [right; left; split; [apply in_box_test, E2 | reflexivity]|].
  destruct (Rleb (-10) lat && Rleb lat 20 && Rleb 90 lon && Rleb lon 150)
    eqn:E3; [right; right; left; split; [apply in_box_test, E3 | reflexivity]|].
  destruct (Rleb 35 lat && Rleb lat 70 && Rleb (-10) lon && Rleb lon 50)
    eqn:E4; [right; right; right; left;
             split; [apply in_box_test, E4 | reflexivity]|].
  right; right; right; right.
  repeat split; try reflexivity; intros H; apply in_box_test in H; congruence.
Qed.

Lemma risk_factor_regions (l : list coord) :
  l <> [] ->
  (_get_location_risk_factor l = Ok 0.8 <->
     south_america (centroid_lat l) (centroid_lon l)) /\
  (_get_location_risk_factor l = Ok 0.7 <->
     central_africa (centroid_lat l) (centroid_lon l)) /\
  (_get_location_risk_factor l = Ok 0.6 <->
     southeast_asia (centroid_lat l) (centroid_lon l)) /\
  (_get_location_risk_factor l = Ok 0.2 <->
     europe (centroid_lat l) (centroid_lon l)) /\
  (_get_location_risk_factor l = Ok 0.4 <->
     ~ south_america (centroid_lat l) (centroid_lon l) /\
     ~ central_africa (centroid_lat l) (centroid_lon l) /\
     ~ southeast_asia (centroid_lat l) (centroid_lon l) /\
     ~ europe (centroid_lat l) (centroid_lon l)).
Proof.
  intros Hne; rewrite risk_factor_nonempty by assumption.
  set (lat := centroid_lat l); set (lon := centroid_lon l).
  assert (Hinj : forall x y : R, @Ok R x = Ok y <-> x = y)
    by (intros x y; split; [intros H; injection H; auto | intros ->; reflexivity]).
  rewrite !Hinj.
  destruct (classify_cases lat lon)
    as [[H ->]|[[H ->]|[[H ->]|[[H ->]|(H1 & H2 & H3 & H4 & ->)]]]];
    unfold south_america, central_africa, southeast_asia, europe, in_box in *;
    repeat split; intros; try lra; try tauto.
Qed.

Lemma py_sum_bounds (lo hi : R) (l : list R) :
  Forall (fun x => lo <= x <= hi) l ->
  INR (length l) * lo <= py_sum l <= INR (length l) * hi.
Proof.
  induction 1 as [|x l Hx _ IH].
  - unfold py_sum; simpl; lra.
  - rewrite py_sum_cons.
    change (length (x :: l)) with (S (length l)); rewrite S_INR; lra.
Qed.

Lemma mean_bounds (lo hi : R) (l : list R) :
  l <> [] -> Forall (fun x => lo <= x <= hi) l ->
  lo <= py_sum l / INR (length l) <= hi.
Proof.
  intros Hne Hall.
  assert (Hn : 0 < INR (length l)).
  { destruct l; [contradiction|]; apply lt_0_INR; simpl; lia. }
  pose proof (py_sum_bounds lo hi l Hall) as [H1 H2].
  assert (E : py_sum l / INR (length l) * INR (length l) = py_sum l)
    by (field; lra).
  split; apply (Rmult_le_reg_r (INR (length l))); try assumption; lra.
Qed.

Lemma centroid_in_box (a b c d : R) (l : list coord) :
  l <> [] ->
  Forall (fun v => in_box a b c d (idx1 v) (idx0 v)) l ->
  in_box a b c d (centroid_lat l) (centroid_lon l).
Proof.
  intros Hne Hall; unfold in_box, centroid_lat, centroid_lon.
  assert (Hmean : forall f : coord -> R,
             forall lo hi, Forall (fun v => lo <= f v <= hi) l ->
             lo <= py_sum (map f l) / INR (length l) <= hi).
  { intros f lo hi Hf.
    rewrite <- (length_map f l).
    apply mean_bounds.
    - intros E; apply map_eq_nil in E; contradiction.
    - apply Forall_map; exact Hf. }
  split; apply Hmean; (eapply Forall_impl; [|exact Hall]);
    intros v Hv; unfold in_box in Hv; tauto.
Qed.

(** X6.  A non-empty polygon whose vertices all lie inside one box of the
    risk table gets that region's factor, whatever its shape: the mean
    centroid stays inside the box. *)
Theorem X_risk_polygon_inside_region (l : list coord) :
  l <> [] ->
  (Forall (fun v => south_america (idx1 v) (idx0 v)) l ->
   _get_location_risk_factor l = Ok 0.8) /\
  (Forall (fun v => central_africa (idx1 v) (idx0 v)) l ->
   _get_location_risk_factor l = Ok 0.7) /\
  (Forall (fun v => southeast_asia (idx1 v) (idx0 v)) l ->
   _get_location_risk_factor l = Ok 0.6) /\
  (Forall (fun v => europe (idx1 v) (idx0 v)) l ->
   _get_location_risk_factor l = Ok 0.2).
Proof.
  intros Hne.
  destruct (risk_factor_regions l Hne) as (H8 & H7 & H6 & H2 & _).
  repeat split; intros Hall;
    [apply H8 | apply H7 | apply H6 | apply H2];
    apply centroid_in_box; assumption.
Qed.

(** ** Order and arithmetic of time spans *)

Local Open Scope Z_scope.


Lemma month_cases (m : Z) :
  1 <= m <= 12 ->
  m = 1 \/ m = 2 \/ m = 3 \/ m = 4 \/ m = 5 \/ m = 6 \/
  m = 7 \/ m = 8 \/ m = 9 \/ m = 10 \/ m = 11 \/ m = 12.
Proof. lia. Qed.

Ltac each_month H :=
  repeat (destruct H as [H|H]; [subst|]); [..|subst].

Lemma days_in_month_pos (y m : Z) : 1 <= m <= 12 -> 28 <= _days_in_month y m.
Proof.
  intros Hm; apply month_cases in Hm.
  each_month Hm; unfold _days_in_month; destruct (_is_leap y);
    calendar_eval; lia.
Qed.

Lemma days_before_month_step (y m1 m2 : Z) :
  1 <= m1 -> m1 < m2 -> m2 <= 12 ->
  _days_before_month y m1 + _days_in_month y m1 <= _days_before_month y m2.
Proof.
  intros H1 H12 H2.
  assert (Hc1 : 1 <= m1 <= 12) by lia; apply month_cases in Hc1.
  assert (Hc2 : 1 <= m2 <= 12) by lia; apply month_cases in Hc2.
  unfold _days_before_month, _days_in_month.
  each_month Hc1; each_month Hc2; try lia;
    destruct (_is_leap y); calendar_eval; lia.
Qed.

Lemma day_of_year_bounds (d : datetime) :
  valid_date d ->
  1 <= _days_before_month (dt_year d) (dt_month d) + dt_day d
    <= year_length (dt_year d).
Proof.
  destruct d as [y m dd]; unfold valid_date; cbn [dt_year dt_month dt_day].
  intros (Hy & Hm & Hd).
  assert (H0 : 0 <= _days_before_month y m).
  { apply month_cases in Hm; unfold _days_before_month.
    each_month Hm; destruct (_is_leap y); calendar_eval; lia. }
  split; [lia|].
  destruct (Z.eq_dec m 12) as [->|Hne].
  - unfold _days_before_month, _days_in_month, year_length in *.
    destruct (_is_leap y); revert Hd; calendar_eval; lia.
  - pose proof (days_before_month_step y m 12 ltac:(lia) ltac:(lia) ltac:(lia)).
    assert (_days_before_month y 12 + 31 <= year_length y).
    { unfold _days_before_month, year_length.
      destruct (_is_leap y); calendar_eval; lia. }
    lia.
Qed.

Lemma days_before_year_mono (y1 y2 : Z) :
  1 <= y1 -> y1 < y2 ->
  _days_before_year y1 + year_length y1 <= _days_before_year y2.
Proof.
  intros H1 H12.
  rewrite <- (days_before_year_succ y1 H1 : _ = _ + year_length y1).
  unfold _days_before_year.
  Z.div_mod_to_equations; lia.
Qed.

Lemma toordinal_mono (d1 d2 : datetime) :
  valid_date d1 -> valid_date d2 -> date_lt d1 d2 ->
  toordinal d1 < toordinal d2.
Proof.
  intros V1 V2 Hlt.
  pose proof (day_of_year_bounds d1 V1) as B1.
  pose proof (day_of_year_bounds d2 V2) as B2.
  destruct d1 as [y1 m1 a1], d2 as [y2 m2 a2].
  unfold valid_date, date_lt, toordinal, _ymd2ord in *;
    cbn [dt_year dt_month dt_day] in *.
  destruct V1 as (Hy1 & Hm1 & Ha1), V2 as (Hy2 & Hm2 & Ha2).
  destruct Hlt as [Hy|[-> [Hm|[-> Ha]]]].
  - pose proof (days_before_year_mono y1 y2 ltac:(lia) Hy); lia.
  - pose proof (days_before_month_step y2 m1 m2 ltac:(lia) Hm ltac:(lia)); lia.
  - lia.
Qed.

Lemma date_trichotomy (d1 d2 : datetime) :
  date_lt d1 d2 \/ d1 = d2 \/ date_lt d2 d1.
Proof.
  destruct d1 as [y1 m1 a1], d2 as [y2 m2 a2];
    unfold date_lt; cbn [dt_year dt_month dt_day].
  destruct (Z.lt_trichotomy y1 y2) as [H|[->|H]]; [lia| |lia].
  destruct (Z.lt_trichotomy m1 m2) as [H|[->|H]]; [lia| |lia].
  destruct (Z.lt_trichotomy a1 a2) as [H|[->|H]]; [lia| |lia].
  right; left; reflexivity.
Qed.

(** X8.  On zero-padded dates [_calculate_time_span] reflects the calendar
    order: it is positive exactly when the end date is later than the start
    date, zero exactly when they are the same date, negative exactly when
    the end date is earlier. *)
Theorem X_time_span_order (d1 d2 : datetime) :
  valid_date d1 -> valid_date d2 ->
  (0 < _calculate_time_span (isoformat d1) (isoformat d2) <-> date_lt d1 d2) /\
  (_calculate_time_span (isoformat d1) (isoformat d2) = 0 <-> d1 = d2) /\
  (_calculate_time_span (isoformat d1) (isoformat d2) < 0 <-> date_lt d2 d1).
Proof.
  intros V1 V2; rewrite time_span_isoformat by assumption.
  destruct (date_trichotomy d1 d2) as [H|[H|H]].
  - pose proof (toordinal_mono d1 d2 V1 V2 H).
    assert (~ date_lt d2 d1)
      by (intros H'; pose proof (toordinal_mono d2 d1 V2 V1 H'); lia).
    assert (d1 <> d2) by (intros ->; lia).
    repeat split; intros; try assumption; try lia; try contradiction.
  - subst d2.
    assert (~ date_lt d1 d1)
      by (intros H'; pose proof (toordinal_mono d1 d1 V1 V1 H'); lia).
    repeat split; intros; try reflexivity; try lia; try contradiction.
  - pose proof (toordinal_mono d2 d1 V2 V1 H).
    assert (~ date_lt d1 d2)
      by (intros H'; pose proof (toordinal_mono d1 d2 V1 V2 H'); lia).
    assert (d1 <> d2) by (intros ->; lia).
    repeat split; intros; try assumption; try lia; try contradiction.
Qed.

(** X9.  On strings that parse, [_calculate_time_span] is a signed distance:
    a date is 0 days from itself, swapping the arguments negates the span,
    and spans add up along an intermediate date. *)
Theorem X_time_span_algebra (a b c : string) (da db dc : datetime) :
  strptime a = Some da -> strptime b = Some db -> strptime c = Some dc ->
  _calculate_time_span a a = 0 /\
  _calculate_time_span b a = - _calculate_time_span a b /\
  _calculate_time_span a c =
    _calculate_time_span a b + _calculate_time_span b c.
Proof.
  intros Ha Hb Hc.
  rewrite (time_span_parsed a a da da), (time_span_parsed b a db da),
    (time_span_parsed a b da db), (time_span_parsed a c da dc),
    (time_span_parsed b c db dc) by assumption.
  lia.
Qed.

Local Close Scope Z_scope.

(** ** Contents of the change result *)

Section ChangeContents.

Variable G : generator.

Lemma analyze_change_report_inv (h c : image) (l : list coord)
    (g g' : rng G) (r : ChangeResult.t) :
  analyze_change G h c l g = Ok (r, g') ->
  exists f,
    _get_location_risk_factor l = Ok f /\
    g' = snd (random G g) /\
    ChangeResult.detailed_report r =
      {| ChangeResult.ndvi_change := -0.1 + (0.1 - -0.1) * fst (random G g);
         ChangeResult.vegetation_loss := false;
         ChangeResult.analysis_method :=
           "NDVI comparison with ML enhancement";
         ChangeResult.temporal_analysis :=
           {| ChangeResult.historical_period := date h;
              ChangeResult.current_period := date c;
              ChangeResult.time_span_days :=
                _calculate_time_span (date h) (date c) |};
         ChangeResult.risk_factors :=
           {| ChangeResult.area_size := py_min (_calculate_area l / 100) 1;
              ChangeResult.geographic_risk := f;
              ChangeResult.cloud_coverage_impact :=
                py_max (get_cloud_coverage h) (get_cloud_coverage c) / 100 |}
      |}.
Proof.
  intros Hrun.
  destruct (analyze_change_ok_inv G _ _ _ _ _ _ Hrun) as [f Hf].
  exists f; split; [exact Hf|].
  assert (Hlow : probability (_calculate_area l) f <= 0.27).
  { apply probability_low.
    apply risk_factor_ok_inv in Hf; destruct Hf as [_ ->].
    apply (risk_levels_range _ (classify_levels _ _)). }
  assert (Hd : Rltb 0.5 (probability (_calculate_area l) f) = false)
    by (apply Rltb_false; lra).
  revert Hrun; unfold analyze_change, bind, lift; rewrite Hf.
  fold (probability (_calculate_area l) f); rewrite Hd.
  unfold uniform; destruct (random G g) as [u g1]; simpl.
  rewrite percentage_of_zero; simpl.
  intros H; injection H as <- <-; split; reflexivity.
Qed.

(** X11.  [analyze_change] raises [ZeroDivisionError] on the empty coordinate
    list and returns a result on every other list, whatever the images;
    it then takes exactly one draw from the generator. *)
Theorem X_analyze_change_domain (h c : image) (l : list coord) (g : rng G) :
  (l = [] -> analyze_change G h c l g = Raise ZeroDivisionError) /\
  (l <> [] ->
   exists r, analyze_change G h c l g = Ok (r, snd (random G g))).
Proof.
  split.
  - intros ->; apply analyze_change_empty.
  - intros Hne.
    destruct (analyze_change_run G h c l
                (classify (centroid_lat l) (centroid_lon l)) g
                (risk_factor_nonempty l Hne)) as (r & Hrun & _).
    exists r; exact Hrun.
Qed.


End ChangeContents.

(** ** Contents of the full report *)

Section ReportContents.

Variable G : generator.
Hypothesis G_ok : generator_ok G.

Ltac draw H :=
  match type of H with
  | context [random G ?x] =>
      let Hu := fresh "Hu" in
      pose proof (proj1 G_ok x) as Hu;
      destruct (random G x); cbn [fst] in Hu
  end.

Lemma full_analysis_report_inv (l : list coord) (g g' : rng G)
    (r : FullReport.t) :
  full_analysis G l g = Ok (r, g') ->
  exists f u,
    _get_location_risk_factor l = Ok f /\
    0 <= u < 1 /\
    FullReport.area_analyzed r = _calculate_area l /\
    (FullReport.forest_loss_detected r = true -> Rltb 0.5 f = true) /\
    FullReport.forest_loss_area r =
      (if FullReport.forest_loss_detected r
       then _calculate_area l * (0.3 * u) else 0) /\
    percentage_of (FullReport.forest_loss_area r) (_calculate_area l)
      = Ok (FullReport.change_percentage r) /\
    FullReport.analysis_confidence r =
      ((if Rltb 10 (_calculate_area l) then 0.9 else 0.7) + 0.95
       + (0.9 - f * 0.2)) / 3 /\
    (let v := FullReport.vegetation_indices (FullReport.detailed_metrics r) in
     0.3 <= FullReport.current_ndvi v <= 0.8 /\
     0.4 <= FullReport.historical_ndvi v <= 0.9 /\
     -0.3 <= FullReport.ndvi_change v <= 0.1 /\
     0.2 <= FullReport.evi v <= 0.7) /\
    (let c := FullReport.land_cover_classification
                (FullReport.detailed_metrics r) in
     (if FullReport.forest_loss_detected r
      then 40 <= FullReport.forest_percentage c <= 70
      else 60 <= FullReport.forest_percentage c <= 90) /\
     5 <= FullReport.agricultural_percentage c <= 30 /\
     5 <= FullReport.other_percentage c <= 15 /\
     0 <= FullReport.water_percentage c <= 5) /\
    FullReport.risk_assessment (FullReport.detailed_metrics r) =
      {| FullReport.deforestation_risk :=
           if Rltb 0.7 f then "HIGH"%string
           else if Rltb 0.4 f then "MEDIUM"%string else "LOW"%string;
         FullReport.geographic_complexity := f;
         FullReport.monitoring_priority :=
           if FullReport.forest_loss_detected r
           then "URGENT"%string else "STANDARD"%string |}.
Proof.
  unfold full_analysis, bind, lift.
  destruct (_get_location_risk_factor l) as [f|e]; [|discriminate].
  intros H; exists f.
  rewrite confidence_divisor in H.
  destruct (Rltb 0.5 f) eqn:Hrisk.
  - unfold choice in H.
    destruct (randbelow G (length [true; false]) g) as [i g1].
    destruct (nth_error [true; false] i) as [b|]; [|discriminate].
    destruct b.
    + unfold uniform at 1 in H.
      pose proof (proj1 G_ok g1) as Hu0.
      destruct (random G g1) as [u g2]; cbn [fst] in Hu0.
      unfold ret at 1 in H.
      destruct (percentage_of (_calculate_area l * (0 + (0.3 - 0) * u))
                              (_calculate_area l)) as [p|] eqn:Hp;
        [|discriminate].
      unfold uniform, ret in H.
      repeat draw H. cbn [negb] in H. repeat draw H.
      injection H as <- _; cbn.
      exists u. replace (0.3 * u) with (0 + (0.3 - 0) * u) by lra.
      unfold py_sum; cbn [fold_left].
      repeat split; try assumption; try reflexivity; try lra; try nra.
    + unfold ret at 1 in H; rewrite percentage_of_zero in H.
      unfold uniform, ret in H.
      repeat draw H. cbn [negb] in H. repeat draw H.
      injection H as <- _; cbn.
      exists 0. rewrite percentage_of_zero.
      unfold py_sum; cbn [fold_left].
      repeat split; try discriminate; try reflexivity; try lra; try nra.
  - unfold ret in H; cbv beta iota in H.
    rewrite percentage_of_zero in H.
    unfold uniform in H.
    repeat draw H. cbn [negb] in H. repeat draw H.
    injection H as <- _; cbn.
    exists 0. rewrite percentage_of_zero.
    unfold py_sum; cbn [fold_left].
    repeat split; try discriminate; try reflexivity; try lra; try nra.
Qed.




(** X15.  The [analysis_confidence] of every report of [full_analysis] lies
    in [0.79, 0.91]; it is at most 0.84 for areas up to 10 hectares and at
    least 0.86 for larger ones. *)
Theorem X_full_analysis_confidence (l : list coord) (g g' : rng G)
    (r : FullReport.t) :
  full_analysis G l g = Ok (r, g') ->
  0.79 <= FullReport.analysis_confidence r <= 0.91 /\
  (FullReport.area_analyzed r <= 10 ->
   FullReport.analysis_confidence r <= 0.84) /\
  (10 < FullReport.area_analyzed r ->
   0.86 <= FullReport.analysis_confidence r).
Proof.
  intros Hrun.
  destruct (full_analysis_report_inv l g g' r Hrun)
    as (f & u & Hf & _ & Harea & _ & _ & _ & Hconf & _).
  apply risk_factor_ok_inv in Hf; destruct Hf as [_ Hf].
  pose proof (risk_levels_range f ltac:(rewrite Hf; apply classify_levels)).
  rewrite Hconf, Harea.
  destruct (Rltb 10 (_calculate_area l)) eqn:E;
    [apply Rltb_true in E | apply Rltb_false in E];
    repeat split; intros; lra.
Qed.

(** X16.  The simulated metrics of every report of [full_analysis] stay in
    their ranges: the vegetation indices in [0.3, 0.8], [0.4, 0.9],
    [-0.3, 0.1] and [0.2, 0.7]; the forest percentage in [40, 70] when loss
    is detected and in [60, 90] otherwise; the other land covers in
    [5, 30], [5, 15] and [0, 5]. *)
Theorem X_full_analysis_metric_ranges (l : list coord) (g g' : rng G)
    (r : FullReport.t) :
  full_analysis G l g = Ok (r, g') ->
  let v := FullReport.vegetation_indices (FullReport.detailed_metrics r) in
  let c := FullReport.land_cover_classification
             (FullReport.detailed_metrics r) in
  (0.3 <= FullReport.current_ndvi v <= 0.8 /\
   0.4 <= FullReport.historical_ndvi v <= 0.9 /\
   -0.3 <= FullReport.ndvi_change v <= 0.1 /\
   0.2 <= FullReport.evi v <= 0.7) /\
  (FullReport.forest_loss_detected r = true ->
   40 <= FullReport.forest_percentage c <= 70) /\
  (FullReport.forest_loss_detected r = false ->
   60 <= FullReport.forest_percentage c <= 90) /\
  5 <= FullReport.agricultural_percentage c <= 30 /\
  5 <= FullReport.other_percentage c <= 15 /\
  0 <= FullReport.water_percentage c <= 5.
Proof.
  intros Hrun.
  destruct (full_analysis_report_inv l g g' r Hrun)
    as (f & u & _ & _ & _ & _ & _ & _ & _ & Hv & Hc & _).
  cbv zeta in *.
  destruct Hc as (Hforest & Hagri & Hother & Hwater).
  split; [exact Hv|].
  split; [intros E; rewrite E in Hforest; exact Hforest|].
  split; [intros E; rewrite E in Hforest; exact Hforest|].
  repeat split; lra.
Qed.

(** X17.  The risk assessment of a report of [full_analysis] labels the
    location factor: HIGH exactly for 0.8, MEDIUM exactly for 0.7 and 0.6,
    LOW exactly for 0.4 and 0.2; a report with loss detected is never
    labelled LOW, and the monitoring priority is URGENT exactly when loss
    is detected. *)
Theorem X_full_analysis_risk_label (l : list coord) (g g' : rng G)
    (r : FullReport.t) (f : R) :
  full_analysis G l g = Ok (r, g') ->
  _get_location_risk_factor l = Ok f ->
  let a := FullReport.risk_assessment (FullReport.detailed_metrics r) in
  FullReport.geographic_complexity a = f /\
  (FullReport.deforestation_risk a = "HIGH"%string <-> f = 0.8) /\
  (FullReport.deforestation_risk a = "MEDIUM"%string <-> f = 0.7 \/ f = 0.6) /\
  (FullReport.deforestation_risk a = "LOW"%string <-> f = 0.4 \/ f = 0.2) /\
  (FullReport.forest_loss_detected r = true ->
   FullReport.deforestation_risk a <> "LOW"%string) /\
  (FullReport.monitoring_priority a = "URGENT"%string <->
   FullReport.forest_loss_detected r = true).
Proof.
  intros Hrun Hf.
  destruct (full_analysis_report_inv l g g' r Hrun)
    as (f' & u & Hf' & _ & _ & Hdet & _ & _ & _ & _ & _ & Hrisk).
  assert (f' = f) by congruence; subst f'.
  cbv zeta; rewrite Hrisk; cbn.
  apply risk_factor_ok_inv in Hf; destruct Hf as [_ Hf].
  pose proof (classify_levels (centroid_lat l) (centroid_lon l)) as Hlev.
  rewrite <- Hf in Hlev; clear Hf Hf'.
  assert (Hdet' : FullReport.forest_loss_detected r = true -> 0.5 < f)
    by (intros E; apply Rltb_true, Hdet, E).
  unfold risk_levels in Hlev; simpl in Hlev.
  destruct Hlev as [E|[E|[E|[E|[E|[]]]]]]; subst f;
    repeat match goal with
           | |- context [Rltb ?a ?b] =>
               first [ rewrite (proj2 (Rltb_true a b)) by lra
                     | rewrite (proj2 (Rltb_false a b)) by lra ]
           end;
    (split; [reflexivity|]);
    destruct (FullReport.forest_loss_detected r);
    repeat split; intros; try discriminate; try reflexivity; try lra;
    try (exfalso; lra);
    try (left; reflexivity); try (right; reflexivity);
    try match goal with
        | H : _ \/ _ |- _ => destruct H; lra
        | H : ?x = true -> _ |- _ => specialize (H eq_refl); lra
        end.
Qed.

End ReportContents.

(** ** The imagery provider and the endpoints *)

Section ServiceFacts.

Variable float_str : R -> string.

Lemma demo_image_empty (image_id : string) (date_range : string * string) :
  _get_demo_image float_str image_id [] date_range
    = Failed (Arithmetic ZeroDivisionError).
Proof.
  unfold _get_demo_image; simpl; rewrite py_div_zero; reflexivity.
Qed.

Lemma demo_image_nonempty (image_id : string) (l : list coord)
    (date_range : string * string) :
  l <> [] ->
  exists u,
    _get_demo_image float_str image_id l date_range =
      Done {| SatelliteImage.url := u;
              SatelliteImage.date := fst date_range;
              SatelliteImage.cloud_coverage := 5;
              SatelliteImage.resolution := "10m";
              SatelliteImage.product_id := image_id |}.
Proof.
  intros Hne.
  assert (Hn : INR (length l) <> 0)
    by (intros E; apply INR_length_zero in E; contradiction).
  unfold _get_demo_image; rewrite !py_div_nonzero by assumption; simpl.
  eexists; reflexivity.
Qed.

Lemma min_by_cloud_spec (best : product) (ps : list product) :
  In (min_by_cloud best ps) (best :: ps) /\
  forall q, In q (best :: ps) ->
    cloudcoverpercentage (min_by_cloud best ps) <= cloudcoverpercentage q.
Proof.
  revert best; induction ps as [|p ps IH]; intros best; simpl.
  - split; [left; reflexivity|]; intros q [<-|[]]; lra.
  - destruct (Rltb (cloudcoverpercentage p) (cloudcoverpercentage best)) eqn:E.
    + apply Rltb_true in E; destruct (IH p) as [Hin Hmin]; split.
      * destruct Hin as [<-|Hin]; [right; left; reflexivity | right; right; exact Hin].
      * intros q [<-|[<-|Hq]].
        -- pose proof (Hmin p (or_introl eq_refl)); lra.
        -- apply Hmin; left; reflexivity.
        -- apply Hmin; right; exact Hq.
    + apply Rltb_false in E; destruct (IH best) as [Hin Hmin]; split.
      * destruct Hin as [<-|Hin]; [left; reflexivity | right; right; exact Hin].
      * intros q [<-|[<-|Hq]].
        -- apply Hmin; left; reflexivity.
        -- pose proof (Hmin best (or_introl eq_refl)); lra.
        -- apply Hmin; right; exact Hq.
Qed.

Lemma api_cases (api : option api_answer) :
  has_products api \/
  (api = None \/ api = Some ApiRaises \/ api = Some (ApiProducts [])).
Proof.
  destruct api as [[|[|p rest]]|]; [tauto | tauto | | tauto].
  left; exists p, rest; reflexivity.
Qed.

Lemma get_satellite_image_fallback (api : option api_answer)
    (image_id : string) (l : list coord) (date_range : string * string) :
  ~ has_products api ->
  get_satellite_image float_str api image_id l date_range =
    _get_demo_image float_str image_id l date_range.
Proof.
  intros Hno.
  destruct api as [[|[|p rest]]|]; unfold get_satellite_image, try_except;
    try reflexivity.
  - destruct (_get_demo_image float_str image_id l date_range); reflexivity.
  - exfalso; apply Hno; exists p, rest; reflexivity.
  - destruct (_get_demo_image float_str image_id l date_range); reflexivity.
Qed.

(** X18.  [get_satellite_image] raises only when the coordinate list is empty
    and the Copernicus client gave no product (the fallback of its
    [except] branch divides by zero again); otherwise it returns an image
    of resolution 10m, which without product is the demonstration image:
    dated at the start of the date range, with cloud coverage 5.0 and the
    drawn identifier. *)
Theorem X_get_satellite_image_domain (api : option api_answer)
    (image_id : string) (l : list coord) (date_range : string * string) :
  (l = [] /\ ~ has_products api ->
   get_satellite_image float_str api image_id l date_range
     = Failed (Arithmetic ZeroDivisionError)) /\
  (l <> [] \/ has_products api ->
   exists img,
     get_satellite_image float_str api image_id l date_range = Done img /\
     SatelliteImage.resolution img = "10m"%string /\
     (~ has_products api ->
      SatelliteImage.date img = fst date_range /\
      SatelliteImage.cloud_coverage img = 5 /\
      SatelliteImage.product_id img = image_id)).
Proof.
  split.
  - intros [-> Hno].
    rewrite get_satellite_image_fallback by assumption.
    apply demo_image_empty.
  - intros H.
    destruct (api_cases api) as [(p & rest & ->)|Hno].
    + eexists; split; [reflexivity|]; split; [reflexivity|].
      intros Hno; exfalso; apply Hno; exists p, rest; reflexivity.
    + assert (Hno' : ~ has_products api)
        by (intros (p & rest & ->); destruct Hno as [E|[E|E]]; discriminate).
      destruct H as [Hne|Hp]; [|contradiction].
      rewrite get_satellite_image_fallback by assumption.
      destruct (demo_image_nonempty image_id l date_range Hne) as [u ->].
      eexists; split; [reflexivity|]; split; [reflexivity|].
      intros _; repeat split.
Qed.

Lemma best_product_image (products : list product)
    (image_id : string) (l : list coord) (date_range : string * string) :
  products <> [] ->
  exists best img,
    In best products /\
    get_satellite_image float_str (Some (ApiProducts products)) image_id l
      date_range = Done img /\
    (forall q, In q products ->
       cloudcoverpercentage best <= cloudcoverpercentage q) /\
    SatelliteImage.cloud_coverage img = cloudcoverpercentage best /\
    SatelliteImage.product_id img = product_key best /\
    SatelliteImage.date img = strftime (beginposition best).
Proof.
  intros Hne.
  destruct products as [|p rest]; [contradiction|].
  destruct (min_by_cloud_spec p rest) as [Hin Hmin].
  exists (min_by_cloud p rest); eexists.
  split; [exact Hin|]; split; [reflexivity|]; split; [exact Hmin|].
  cbn; repeat split.
Qed.

(** X19.  When the Copernicus query returns products, [get_satellite_image]
    describes one of them whose cloud cover is least among all of them,
    whatever the coordinates, and dates the image with the [strftime] text
    of that product's acquisition date.  For a date of the year 1000 or
    later that text parses back (with [strptime]) to the acquisition date;
    for an earlier year it has fewer than four year digits and does not
    parse. *)
Theorem X_get_satellite_image_best_product (products : list product)
    (image_id : string) (l : list coord) (date_range : string * string) :
  products <> [] ->
  Forall (fun p => valid_date (beginposition p)) products ->
  exists best img,
    In best products /\
    get_satellite_image float_str (Some (ApiProducts products)) image_id l
      date_range = Done img /\
    (forall q, In q products ->
       cloudcoverpercentage best <= cloudcoverpercentage q) /\
    SatelliteImage.cloud_coverage img = cloudcoverpercentage best /\
    SatelliteImage.product_id img = product_key best /\
    SatelliteImage.date img = strftime (beginposition best) /\
    ((1000 <= dt_year (beginposition best))%Z ->
     strptime (SatelliteImage.date img) = Some (beginposition best)) /\
    ((dt_year (beginposition best) < 1000)%Z ->
     strptime (SatelliteImage.date img) = None).
Proof.
  intros Hne Hvalid.
  destruct (best_product_image products image_id l date_range Hne)
    as (best & img & Hin & Himg & Hmin & Hcc & Hid & Hdate).
  rewrite Forall_forall in Hvalid; specialize (Hvalid best Hin).
  exists best, img.
  split; [exact Hin|]; split; [exact Himg|]; split; [exact Hmin|].
  split; [exact Hcc|]; split; [exact Hid|]; split; [exact Hdate|].
  rewrite Hdate; split; intros Hy.
  - apply strptime_strftime; assumption.
  - apply strptime_strftime_early.
    destruct Hvalid as [Hyear _]; lia.
Qed.

End ServiceFacts.

Section EndpointFacts.

Variable float_str : R -> string.
Variable G : generator.

Lemma get_satellite_image_nonempty (api : option api_answer)
    (image_id : string) (l : list coord) (date_range : string * string) :
  l <> [] ->
  exists img,
    get_satellite_image float_str api image_id l date_range = Done img.
Proof.
  intros Hne.
  destruct (api_cases api) as [(p & rest & ->)|Hno].
  - eexists; reflexivity.
  - assert (Hno' : ~ has_products api)
      by (intros (p & rest & ->); destruct Hno as [E|[E|E]]; discriminate).
    rewrite get_satellite_image_fallback by assumption.
    destruct (demo_image_nonempty float_str image_id l date_range Hne)
      as [u ->].
    eexists; reflexivity.
Qed.

Lemma length_zero_nonempty {A : Type} (l : list A) :
  l <> [] -> (length l =? 0)%nat = false.
Proof. destruct l; [contradiction | reflexivity]. Qed.

(** A request that is not served from the cache and has vertices: the
    body runs to its end, on the images the provider returned. *)
Lemma check_body_run (env : collaborators) (l : list coord) (g : rng G) :
  cached_result env = None -> l <> [] ->
  exists cur hist res,
    get_satellite_image float_str (api_current env) (uuid_current env) l
      ("2023-01-01", "2024-12-31")%string = Done cur /\
    get_satellite_image float_str (api_historical env) (uuid_historical env) l
      ("2019-01-01", "2020-12-31")%string = Done hist /\
    analyze_change G (as_image hist) (as_image cur) l g
      = Ok (res, snd (random G g)) /\
    ChangeResult.deforestation_detected res = false /\
    check_eudr_compliance_body float_str G env
      {| geojson_coordinates := Some l |} g =
      let response_data := {|
        EUDRResponse.coordinates := l;
        EUDRResponse.is_eudr_compliant := true;
        EUDRResponse.deforestation_detected := false;
        EUDRResponse.analysis_date := now env;
        EUDRResponse.confidence_score := ChangeResult.confidence_score res;
        EUDRResponse.current_image_url := SatelliteImage.url cur;
        EUDRResponse.historical_image_url := SatelliteImage.url hist;
        EUDRResponse.report := ChangeResult.detailed_report res |} in
      Done (response_data,
            {| cache_set := Some response_data; alert_sent := None |},
            snd (random G g)).
Proof.
  intros Hmiss Hne.
  destruct (get_satellite_image_nonempty (api_current env) (uuid_current env)
              l ("2023-01-01", "2024-12-31")%string Hne) as [cur Hcur].
  destruct (get_satellite_image_nonempty (api_historical env)
              (uuid_historical env) l ("2019-01-01", "2020-12-31")%string Hne)
    as [hist Hhist].
  destruct (analyze_change_run G (as_image hist) (as_image cur) l _ g
              (risk_factor_nonempty l Hne))
    as (res & Hrun & Hdet & _).
  exists cur, hist, res.
  split; [exact Hcur|]; split; [exact Hhist|]; split; [exact Hrun|].
  split; [exact Hdet|].
  unfold check_eudr_compliance_body; cbn [geojson_coordinates obind].
  rewrite Hmiss, (length_zero_nonempty l Hne); cbn [obind].
  rewrite Hcur, Hhist; cbn [obind].
  rewrite Hrun; cbn [of_result obind].
  rewrite Hdet; reflexivity.
Qed.


(** X21.  The compliance check never answers with another error status than
    500: with nothing cached, a request whose coordinates are missing
    raises [KeyError] and one whose coordinates are empty raises the
    [HTTPException] of status 400 inside the [try], and the handler turns
    both into HTTP 500. *)
Theorem X_check_eudr_invalid_request (env : collaborators)
    (request : GeoJSONRequest) (g : rng G) :
  (forall status_code,
     check_eudr_compliance float_str G env request g = HTTPError status_code ->
     status_code = 500%nat) /\
  (cached_result env = None ->
   geojson_coordinates request = None \/
   geojson_coordinates request = Some [] ->
   check_eudr_compliance_body float_str G env request g
     = Failed (match geojson_coordinates request with
               | None => KeyError
               | Some _ => HTTPException 400
               end) /\
   check_eudr_compliance float_str G env request g = HTTPError 500).
Proof.
  split.
  - unfold check_eudr_compliance, internal_error; intros s.
    destruct (check_eudr_compliance_body float_str G env request g);
      [discriminate|].
    intros H; injection H as <-; reflexivity.
  - intros Hmiss Hbad.
    unfold check_eudr_compliance, check_eudr_compliance_body.
    destruct request as [c]; cbn [geojson_coordinates] in *.
    destruct Hbad as [->| ->]; cbn [obind]; [split; reflexivity|].
    rewrite Hmiss; cbn; split; reflexivity.
Qed.

(** X22.  Without Copernicus products (demonstration images), every
    compliance check of a non-empty polygon reports the periods 2019-01-01
    and 2023-01-01, a time span of 1461 days and a cloud coverage impact of
    0.05. *)
Theorem X_check_eudr_demo_mode (env : collaborators) (l : list coord)
    (g : rng G) :
  cached_result env = None -> l <> [] ->
  ~ has_products (api_current env) -> ~ has_products (api_historical env) ->
  exists r eff g',
    check_eudr_compliance float_str G env
      {| geojson_coordinates := Some l |} g = Response (r, eff, g') /\
    let t := ChangeResult.temporal_analysis (EUDRResponse.report r) in
    ChangeResult.historical_period t = "2019-01-01"%string /\
    ChangeResult.current_period t = "2023-01-01"%string /\
    ChangeResult.time_span_days t = 1461%Z /\
    ChangeResult.cloud_coverage_impact
      (ChangeResult.risk_factors (EUDRResponse.report r)) = 0.05.
Proof.
  intros Hmiss Hne Hcur Hhist.
  destruct (check_body_run env l g Hmiss Hne)
    as (cur & hist & res & Ecur & Ehist & Hrun & _ & Hbody).
  rewrite get_satellite_image_fallback in Ecur, Ehist by assumption.
  destruct (demo_image_nonempty float_str (uuid_current env) l
              ("2023-01-01", "2024-12-31")%string Hne) as [u1 E1].
  destruct (demo_image_nonempty float_str (uuid_historical env) l
              ("2019-01-01", "2020-12-31")%string Hne) as [u2 E2].
  rewrite E1 in Ecur; rewrite E2 in Ehist.
  injection Ecur as <-; injection Ehist as <-.
  destruct (analyze_change_report_inv G _ _ _ _ _ _ Hrun) as (f & _ & _ & Hd).
  unfold check_eudr_compliance; rewrite Hbody; cbv zeta.
  do 3 eexists; split; [reflexivity|]; cbn.
  rewrite Hd; cbn.
  repeat split.
  unfold get_cloud_coverage, as_image; cbn.
  rewrite py_max_Rmax, Rmax_left by lra; lra.
Qed.

(** X24.  The detailed-analysis endpoint answers HTTP 500 when the
    coordinates are missing or empty, and otherwise answers with the
    report [full_analysis] returns. *)
Theorem X_analyze_deforestation_endpoint (request : GeoJSONRequest)
    (g : rng G) :
  generator_ok G ->
  (geojson_coordinates request = None \/ geojson_coordinates request = Some []
   -> analyze_deforestation G request g = HTTPError 500) /\
  (forall l, geojson_coordinates request = Some l -> l <> [] ->
   exists r g',
     full_analysis G l g = Ok (r, g') /\
     analyze_deforestation G request g = Response (r, g')).
Proof.
  intros Hok; unfold analyze_deforestation; split.
  - intros [->| ->]; cbn; [reflexivity|].
    unfold full_analysis, bind, lift; rewrite risk_factor_empty; reflexivity.
  - intros l -> Hne.
    destruct (full_analysis_returns G l g Hok Hne) as (r & g' & Hrun).
    exists r, g'; split; [exact Hrun|].
    cbn; rewrite Hrun; reflexivity.
Qed.

End EndpointFacts.

(** ** Instances and further statements *)

Lemma valid_new_year_2023 : valid_date new_year_2023.
Proof. repeat split; vm_compute; discriminate. Qed.

Lemma valid_new_year_eve_2023 : valid_date new_year_eve_2023.
Proof. repeat split; vm_compute; discriminate. Qed.

Lemma current_products_valid :
  Forall (fun p => valid_date (beginposition p)) [product_a; product_b].
Proof.
  constructor; [exact valid_new_year_2023|].
  constructor; [exact valid_new_year_eve_2023 | constructor].
Qed.

Lemma current_products_four_digits :
  Forall four_digit_year [product_a; product_b].
Proof.
  constructor; [split; [exact valid_new_year_2023 | discriminate]|].
  constructor; [split; [exact valid_new_year_eve_2023 | discriminate]|].
  constructor.
Qed.

Lemma historical_products_four_digits : Forall four_digit_year [product_a].
Proof.
  constructor; [split; [exact valid_new_year_2023 | discriminate]|].
  constructor.
Qed.

Lemma X_risk_polygon_inside_region_witness :
  _get_location_risk_factor polygon_congo = Ok 0.7.
Proof.
  destruct (X_risk_polygon_inside_region polygon_congo) as (_ & H & _);
    [discriminate|].
  apply H; unfold polygon_congo, central_africa, in_box, idx0, idx1.
  repeat constructor; simpl; lra.
Defined.

Lemma X_time_span_order_witness :
  (0 < _calculate_time_span (isoformat new_year_2023)
         (isoformat new_year_eve_2023))%Z.
Proof.
  destruct (X_time_span_order new_year_2023 new_year_eve_2023
              valid_new_year_2023 valid_new_year_eve_2023) as [H _].
  apply H; unfold date_lt; simpl; lia.
Defined.

Lemma X_time_span_algebra_witness :
  _calculate_time_span "2019-01-01" "2019-01-01" = 0%Z /\
  _calculate_time_span "2023-01-01" "2019-01-01"
    = (- _calculate_time_span "2019-01-01" "2023-01-01")%Z /\
  _calculate_time_span "2019-01-01" "2023-12-31" =
    (_calculate_time_span "2019-01-01" "2023-01-01"
     + _calculate_time_span "2023-01-01" "2023-12-31")%Z.
Proof.
  apply (X_time_span_algebra "2019-01-01" "2023-01-01" "2023-12-31"
           {| dt_year := 2019; dt_month := 1; dt_day := 1 |}
           new_year_2023 new_year_eve_2023);
    vm_compute; reflexivity.
Defined.

(** X5.  For a non-empty vertex list the four boxes of the risk table are
    disjoint, so the order of the tests does not matter:
    [_get_location_risk_factor] returns 0.8, 0.7, 0.6 or 0.2 exactly when
    the centroid lies in the South America, Central Africa, Southeast Asia
    or Europe box (bounds included), and 0.4 exactly when it lies in
    none. *)
Theorem X_risk_regions (l : list coord) :
  l <> [] ->
  (_get_location_risk_factor l = Ok 0.8 <->
     south_america (centroid_lat l) (centroid_lon l)) /\
  (_get_location_risk_factor l = Ok 0.7 <->
     central_africa (centroid_lat l) (centroid_lon l)) /\
  (_get_location_risk_factor l = Ok 0.6 <->
     southeast_asia (centroid_lat l) (centroid_lon l)) /\
  (_get_location_risk_factor l = Ok 0.2 <->
     europe (centroid_lat l) (centroid_lon l)) /\
  (_get_location_risk_factor l = Ok 0.4 <->
     ~ south_america (centroid_lat l) (centroid_lon l) /\
     ~ central_africa (centroid_lat l) (centroid_lon l) /\
     ~ southeast_asia (centroid_lat l) (centroid_lon l) /\
     ~ europe (centroid_lat l) (centroid_lon l)).
Proof. exact (risk_factor_regions l). Qed.

Lemma X_risk_regions_witness :
  _get_location_risk_factor polygon_congo = Ok 0.7.
Proof.
  destruct (X_risk_regions polygon_congo) as (_ & H & _); [discriminate|].
  apply H; destruct centroid_congo as [-> ->].
  unfold central_africa, in_box; lra.
Defined.

(** X10.  [_calculate_time_span] counts whole calendar days: from a date to
    the day after it (across month ends, leap days and year ends) the span
    is 1, and -1 the other way. *)
Theorem X_time_span_consecutive_days (d : datetime) :
  valid_date d -> valid_date (next_day d) ->
  _calculate_time_span (isoformat d) (isoformat (next_day d)) = 1%Z /\
  _calculate_time_span (isoformat (next_day d)) (isoformat d) = (-1)%Z.
Proof.
  intros Hd Hn; rewrite !time_span_isoformat by assumption.
  rewrite toordinal_next_day by assumption; lia.
Qed.

Lemma X_time_span_consecutive_days_witness :
  _calculate_time_span (isoformat new_year_eve_2023)
    (isoformat (next_day new_year_eve_2023)) = 1%Z /\
  _calculate_time_span (isoformat (next_day new_year_eve_2023))
    (isoformat new_year_eve_2023) = (-1)%Z.
Proof.
  apply X_time_span_consecutive_days;
    repeat split; vm_compute; discriminate.
Defined.

Lemma X_analyze_change_domain_witness :
  analyze_change zero_tape (demo_image "2019-01-01") (demo_image "2023-01-01")
    [] 0%nat = Raise ZeroDivisionError /\
  exists r,
    analyze_change zero_tape (demo_image "2019-01-01")
      (demo_image "2023-01-01") triangle 0%nat
      = Ok (r, snd (random zero_tape 0%nat)).
Proof.
  split.
  - apply (X_analyze_change_domain zero_tape); reflexivity.
  - apply (X_analyze_change_domain zero_tape); discriminate.
Defined.


(** X13.  [full_analysis] raises [ZeroDivisionError] on the empty coordinate
    list; with a generator that keeps its draws in range it returns a
    report for every other list, whose [area_analyzed] is the computed
    area; it never returns a report for the empty list. *)
Theorem X_full_analysis_domain (G : generator) (l : list coord) (g : rng G) :
  (l = [] -> full_analysis G l g = Raise ZeroDivisionError) /\
  (generator_ok G -> l <> [] ->
   exists r g',
     full_analysis G l g = Ok (r, g') /\
     FullReport.area_analyzed r = _calculate_area l) /\
  (forall r g', full_analysis G l g = Ok (r, g') -> l <> []).
Proof.
  split; [|split].
  - intros ->; unfold full_analysis, bind, lift.
    rewrite risk_factor_empty; reflexivity.
  - intros Hok Hne.
    destruct (full_analysis_returns G l g Hok Hne) as (r & g' & Hrun).
    exists r, g'; split; [exact Hrun|].
    destruct (full_analysis_inv G _ _ _ _ Hrun) as (f & _ & Harea & _).
    exact Harea.
  - intros r g' Hrun.
    destruct (full_analysis_inv G _ _ _ _ Hrun) as (f & Hf & _).
    apply risk_factor_ok_inv in Hf; tauto.
Qed.

Lemma X_full_analysis_domain_witness :
  full_analysis zero_tape [] 0%nat = Raise ZeroDivisionError /\
  exists r g',
    full_analysis zero_tape square_plot 0%nat = Ok (r, g') /\
    FullReport.area_analyzed r = _calculate_area square_plot.
Proof.
  destruct (X_full_analysis_domain zero_tape [] 0%nat) as (He & _).
  destruct (X_full_analysis_domain zero_tape square_plot 0%nat)
    as (_ & Hr & _).
  split; [apply He; reflexivity | apply Hr; [exact zero_tape_ok | discriminate]].
Defined.



Lemma X_full_analysis_confidence_witness :
  exists (r : FullReport.t) (g' : rng zero_tape),
    full_analysis zero_tape square_plot 0%nat = Ok (r, g') /\
    0.79 <= FullReport.analysis_confidence r <= 0.91.
Proof.
  destruct (full_analysis_returns zero_tape square_plot 0%nat zero_tape_ok)
    as (r & g' & Hrun); [discriminate|].
  destruct (X_full_analysis_confidence zero_tape zero_tape_ok _ _ _ _ Hrun)
    as (H & _).
  exists r, g'; split; [exact Hrun | exact H].
Defined.

Lemma X_full_analysis_metric_ranges_witness :
  exists (r : FullReport.t) (g' : rng zero_tape),
    full_analysis zero_tape square_plot 0%nat = Ok (r, g') /\
    5 <= FullReport.agricultural_percentage
           (FullReport.land_cover_classification
              (FullReport.detailed_metrics r)) <= 30.
Proof.
  destruct (full_analysis_returns zero_tape square_plot 0%nat zero_tape_ok)
    as (r & g' & Hrun); [discriminate|].
  destruct (X_full_analysis_metric_ranges zero_tape zero_tape_ok _ _ _ _ Hrun)
    as (_ & _ & _ & H & _).
  exists r, g'; split; [exact Hrun | exact H].
Defined.

Lemma X_full_analysis_risk_label_witness :
  exists (r : FullReport.t) (g' : rng zero_tape),
    full_analysis zero_tape triangle 0%nat = Ok (r, g') /\
    FullReport.deforestation_risk
      (FullReport.risk_assessment (FullReport.detailed_metrics r))
      = "LOW"%string.
Proof.
  destruct (full_analysis_returns zero_tape triangle 0%nat zero_tape_ok)
    as (r & g' & Hrun); [discriminate|].
  destruct (X_full_analysis_risk_label zero_tape zero_tape_ok _ _ _ _ 0.4
              Hrun risk_factor_triangle) as (_ & _ & _ & Hlow & _).
  exists r, g'; split; [exact Hrun|].
  apply Hlow; left; reflexivity.
Defined.

Section ApiTimeSpan.
Variable float_str : R -> string.
Variable G : generator.

(** X23.  When the Copernicus client returns products for both periods,
    all acquired in the year 1000 or later, the time span of the compliance
    report is the true number of days between the acquisition dates of the
    two selected products (the 365-day fallback is not taken), and the
    cloud coverage impact is the larger of their cloud covers over 100. *)
Theorem X_check_eudr_api_time_span (env : collaborators) (l : list coord)
    (g : rng G) (current historical : list product) :
  cached_result env = None -> l <> [] ->
  api_current env = Some (ApiProducts current) -> current <> [] ->
  api_historical env = Some (ApiProducts historical) -> historical <> [] ->
  Forall four_digit_year current ->
  Forall four_digit_year historical ->
  exists best_current best_historical r eff g',
    In best_current current /\ In best_historical historical /\
    check_eudr_compliance float_str G env
      {| geojson_coordinates := Some l |} g = Response (r, eff, g') /\
    ChangeResult.time_span_days
      (ChangeResult.temporal_analysis (EUDRResponse.report r)) =
      (toordinal (beginposition best_current)
       - toordinal (beginposition best_historical))%Z /\
    ChangeResult.cloud_coverage_impact
      (ChangeResult.risk_factors (EUDRResponse.report r)) =
      Rmax (cloudcoverpercentage best_historical)
           (cloudcoverpercentage best_current) / 100.
Proof.
  intros Hmiss Hne Hcur Hc Hhist Hh Vc Vh.
  destruct (check_body_run float_str G env l g Hmiss Hne)
    as (cur & hist & res & Ecur & Ehist & Hrun & _ & Hbody).
  rewrite Hcur in Ecur; rewrite Hhist in Ehist.
  destruct (best_product_image float_str current (uuid_current env) l
              ("2023-01-01", "2024-12-31")%string Hc)
    as (bc & ic & Hinc & Eic & _ & Hcc & _ & Hdc).
  destruct (best_product_image float_str historical (uuid_historical env) l
              ("2019-01-01", "2020-12-31")%string Hh)
    as (bh & ih & Hinh & Eih & _ & Hch & _ & Hdh).
  rewrite Forall_forall in Vc, Vh.
  destruct (Vc bc Hinc) as [Vbc Ybc]; destruct (Vh bh Hinh) as [Vbh Ybh].
  rewrite Eic in Ecur; injection Ecur as <-.
  rewrite Eih in Ehist; injection Ehist as <-.
  destruct (analyze_change_report_inv G _ _ _ _ _ _ Hrun) as (f & _ & _ & Hd).
  exists bc, bh.
  unfold check_eudr_compliance; rewrite Hbody; cbv zeta.
  do 3 eexists; split; [exact Hinc|]; split; [exact Hinh|].
  split; [reflexivity|]; cbn.
  rewrite Hd; cbn; split.
  - apply time_span_parsed.
    + rewrite Hdh; apply strptime_strftime; assumption.
    + rewrite Hdc; apply strptime_strftime; assumption.
  - unfold get_cloud_coverage; cbn.
    rewrite py_max_Rmax, Hcc, Hch; reflexivity.
Qed.

End ApiTimeSpan.

Lemma X_get_satellite_image_domain_witness :
  get_satellite_image no_float_str None "id" [] ("2023-01-01", "2024-12-31")%string
    = Failed (Arithmetic ZeroDivisionError) /\
  exists img,
    get_satellite_image no_float_str (Some ApiRaises) "id" triangle
      ("2023-01-01", "2024-12-31")%string = Done img /\
    SatelliteImage.resolution img = "10m"%string.
Proof.
  destruct (X_get_satellite_image_domain no_float_str None "id" []
              ("2023-01-01", "2024-12-31")%string) as [Hfail _].
  destruct (X_get_satellite_image_domain no_float_str (Some ApiRaises) "id"
              triangle ("2023-01-01", "2024-12-31")%string)
    as [_ Hdone].
  split.
  - apply Hfail; split; [reflexivity|].
    intros (p & rest & E); discriminate E.
  - destruct Hdone as (img & E & Hres & _); [left; discriminate|].
    exists img; split; [exact E | exact Hres].
Defined.

Lemma X_get_satellite_image_best_product_witness :
  exists best img,
    In best [product_a; product_b] /\
    get_satellite_image no_float_str (Some (ApiProducts [product_a; product_b]))
      "id" triangle ("2023-01-01", "2024-12-31")%string = Done img /\
    (forall q, In q [product_a; product_b] ->
       cloudcoverpercentage best <= cloudcoverpercentage q) /\
    SatelliteImage.cloud_coverage img = cloudcoverpercentage best /\
    SatelliteImage.product_id img = product_key best /\
    SatelliteImage.date img = strftime (beginposition best) /\
    ((1000 <= dt_year (beginposition best))%Z ->
     strptime (SatelliteImage.date img) = Some (beginposition best)) /\
    ((dt_year (beginposition best) < 1000)%Z ->
     strptime (SatelliteImage.date img) = None).
Proof.
  apply X_get_satellite_image_best_product;
    [discriminate | exact current_products_valid].
Defined.


Lemma X_check_eudr_invalid_request_witness :
  check_eudr_compliance no_float_str zero_tape demo_collaborators
    {| geojson_coordinates := Some [] |} 0%nat = HTTPError 500 /\
  check_eudr_compliance no_float_str zero_tape demo_collaborators
    {| geojson_coordinates := None |} 0%nat = HTTPError 500.
Proof.
  destruct (X_check_eudr_invalid_request no_float_str zero_tape
              demo_collaborators {| geojson_coordinates := Some [] |} 0%nat)
    as [_ He].
  destruct (X_check_eudr_invalid_request no_float_str zero_tape
              demo_collaborators {| geojson_coordinates := None |} 0%nat)
    as [_ Hn].
  split.
  - apply He; [reflexivity | right; reflexivity].
  - apply Hn; [reflexivity | left; reflexivity].
Defined.

Lemma X_check_eudr_demo_mode_witness :
  exists r eff g',
    check_eudr_compliance no_float_str zero_tape demo_collaborators
      {| geojson_coordinates := Some triangle |} 0%nat
      = Response (r, eff, g') /\
    ChangeResult.time_span_days
      (ChangeResult.temporal_analysis (EUDRResponse.report r)) = 1461%Z.
Proof.
  assert (Hno : ~ has_products None)
    by (intros (p & rest & E); discriminate E).
  destruct (X_check_eudr_demo_mode no_float_str zero_tape demo_collaborators
              triangle 0%nat eq_refl ltac:(discriminate) Hno Hno)
    as (r & eff & g' & E & _ & _ & H & _).
  exists r, eff, g'; split; [exact E | exact H].
Defined.

Lemma X_check_eudr_api_time_span_witness :
  exists r eff g',
    check_eudr_compliance no_float_str zero_tape api_collaborators
      {| geojson_coordinates := Some triangle |} 0%nat
      = Response (r, eff, g') /\
    exists best_current best_historical,
      ChangeResult.time_span_days
        (ChangeResult.temporal_analysis (EUDRResponse.report r)) =
        (toordinal (beginposition best_current)
         - toordinal (beginposition best_historical))%Z.
Proof.
  destruct (X_check_eudr_api_time_span no_float_str zero_tape
              api_collaborators triangle 0%nat
              [product_a; product_b] [product_a]
              eq_refl ltac:(discriminate) eq_refl ltac:(discriminate)
              eq_refl ltac:(discriminate)
              current_products_four_digits historical_products_four_digits)
    as (bc & bh & r & eff & g' & _ & _ & E & H & _).
  exists r, eff, g'; split; [exact E|]; exists bc, bh; exact H.
Defined.

Lemma X_analyze_deforestation_endpoint_witness :
  analyze_deforestation zero_tape {| geojson_coordinates := Some [] |} 0%nat
    = HTTPError 500 /\
  exists r g',
    full_analysis zero_tape square_plot 0%nat = Ok (r, g') /\
    analyze_deforestation zero_tape
      {| geojson_coordinates := Some square_plot |} 0%nat = Response (r, g').
Proof.
  destruct (X_analyze_deforestation_endpoint zero_tape
              {| geojson_coordinates := Some [] |} 0%nat zero_tape_ok)
    as [He _].
  destruct (X_analyze_deforestation_endpoint zero_tape
              {| geojson_coordinates := Some square_plot |} 0%nat zero_tape_ok)
    as [_ Hr].
  split; [apply He; right; reflexivity|].
  apply (Hr square_plot); [reflexivity | discriminate].
Defined.
